(** * BananaIQ: the MQ-4 methane pipeline, the smoothing window, the shelf-life
    classifier and the two-screen LCD controller of [main.py].

    Python floats are IEEE binary64 values, modelled by Rocq's primitive
    [float]; Python ints are [Z].  An operation that can raise returns a
    [result]; [try ... except Exception] is a [match] on it.  The hardware
    is an input: the sample the ADC returns, and the DHT measurement or the
    exception of its driver.  Of the text printed on stdout, the lines that
    report a caught exception are kept; delays are not modelled. *)

From Stdlib Require Import ZArith List String Ascii Bool Lia.
From Stdlib Require Import Floats DecimalString.
Import ListNotations.

Set Warnings "-inexact-float".

Local Open Scope Z_scope.

(** ** Exceptions and the error monad *)

Inductive exn : Type :=
| ZeroDivisionError
| OverflowError
| TypeError
| ValueError
| RuntimeError (msg : string)
| OSError (msg : string).

Inductive result (A : Type) : Type :=
| Ok (a : A)
| Raise (e : exn).

Arguments Ok {A} a.
Arguments Raise {A} e.

Definition bind {A B : Type} (r : result A) (k : A -> result B) : result B :=
  match r with
  | Ok a => k a
  | Raise e => Raise e
  end.

Notation "x <- r ;; k" := (bind r (fun x => k))
  (at level 61, r at next level, right associativity).

(** [str(e)] of an exception instance, as [print] shows it. *)
Definition exn_str (e : exn) : string :=
  match e with
  | ZeroDivisionError => "float division by zero"
  | OverflowError => "int too large to convert to float"
  | TypeError => "unsupported operand type"
  | ValueError => "invalid value"
  | RuntimeError msg => msg
  | OSError msg => msg
  end.

(** ** Python arithmetic on floats *)

Module PyFloat.

Local Open Scope float_scope.

(** The double nearest to an integer (ties to even). *)
Definition Z2float (z : Z) : float :=
  SF2Prim (binary_normalize prec emax z 0 false).

(** Integers that round to a finite double: below [2^1024 - 2^970]. *)
Definition int_max_float : Z := (2 ^ 1024 - 2 ^ 970)%Z.

(** [float(z)], and the conversion of the int operand of a mixed operation. *)
Definition float_of_int (z : Z) : result float :=
  if (Z.abs z <? int_max_float)%Z then Ok (Z2float z)
  else Raise OverflowError.

Definition geb (x y : float) : bool := y <=? x.
Definition gtb (x y : float) : bool := y <? x.

(** [x / y]: Python raises on a zero divisor of either sign. *)
Definition truediv (x y : float) : result float :=
  if y =? 0 then Raise ZeroDivisionError else Ok (x / y).

(** [sum(l)]: plain accumulation, left to right from 0. *)
Definition py_sum (l : list float) : float := fold_left add l 0.

(** [int(x)]: truncation toward zero. *)
Definition int_of_float (x : float) : result Z :=
  match Prim2SF x with
  | S754_nan => Raise ValueError
  | S754_infinity _ => Raise OverflowError
  | S754_zero _ => Ok 0%Z
  | S754_finite s m e =>
      let a := (if 0 <=? e then Z.pos m * 2 ^ e else Z.pos m / 2 ^ (- e))%Z in
      Ok (if s then (- a)%Z else a)
  end.

End PyFloat.
Import PyFloat.

(** ** SensorSuite *)

(** A numeric constructor argument as the caller wrote it: an int or a float. *)
Inductive num : Type :=
| Int (z : Z)
| Flt (f : float).

Definition float_of_num (x : num) : result float :=
  match x with
  | Int z => float_of_int z
  | Flt f => Ok f
  end.

(** [x == 0] *)
Definition num_is_0 (x : num) : bool :=
  match x with
  | Int z => z =? 0
  | Flt f => (f =? 0)%float
  end.

(** [bool(x)] of an optional number: None, 0, 0.0 and -0.0 are false. *)
Definition truthy (x : option num) : bool :=
  match x with
  | None => false
  | Some v => negb (num_is_0 v)
  end.

(** [x or d]: [x] when it is true, else [d]. *)
Definition py_or (x : option num) (d : num) : num :=
  match x with
  | Some v => if truthy x then v else d
  | None => d
  end.

(** [x / y] with [y] an int or a float. *)
Definition truediv_num (x : float) (y : num) : result float :=
  d <- float_of_num y ;; truediv x d.

(** [a / b] for two ints: the correctly rounded quotient, computed on the
    integers themselves; a zero dividend takes the sign of the quotient. *)
Definition int_truediv (a b : Z) : result float :=
  if b =? 0 then Raise ZeroDivisionError
  else if a =? 0 then Ok (if b <? 0 then (-0)%float else 0%float)
  else
    match SFdiv prec emax (S754_finite (a <? 0) (Z.to_pos (Z.abs a)) 0)
                          (S754_finite (b <? 0) (Z.to_pos (Z.abs b)) 0) with
    | S754_infinity _ => Raise OverflowError
    | q => Ok (SF2Prim q)
    end.

(** [x + y] with [x] an int or a float. *)
Definition add_num (x : num) (y : float) : result float :=
  a <- float_of_num x ;; Ok (a + y)%float.

(** [x / z] with [x] an int or a float and [z] an int. *)
Definition num_truediv_int (x : num) (z : Z) : result float :=
  match x with
  | Int a => int_truediv a z
  | Flt f => truediv_num f (Int z)
  end.

(** [sum(l)] as a Python value: the int 0 for the empty list. *)
Definition py_sum_num (l : list float) : num :=
  match l with
  | [] => Int 0
  | _ => Flt (py_sum l)
  end.

Record SensorSuite : Type := mkSensorSuite {
  mq4_rl : float;          (* load resistor; the int default 10000 is used as 10000.0 *)
  mq4_vref : float;        (* reference voltage *)
  mq4_ro_factor : num;     (* clean-air factor *)
  mq4_ro : option float    (* baseline resistance, None until calibrated *)
}.

Definition RO_CLEAN_AIR_FACTOR_DEFAULT : float := 4.0%float.

(** [__init__]: [mq4_ro_clean_air_factor or RO_CLEAN_AIR_FACTOR_DEFAULT]. *)
Definition SensorSuite_init (mq4_rl mq4_vref : float)
    (mq4_ro_clean_air_factor : option num) : SensorSuite :=
  mkSensorSuite mq4_rl mq4_vref
    (py_or mq4_ro_clean_air_factor (Flt RO_CLEAN_AIR_FACTOR_DEFAULT))
    None.

Definition set_mq4_ro (self : SensorSuite) (ro : option float) : SensorSuite :=
  mkSensorSuite (mq4_rl self) (mq4_vref self) (mq4_ro_factor self) ro.

Definition UNCALIBRATED : string :=
  "MQ-4 Ro not calibrated; call calibrate_mq4_ro() first.".

Section Sensor.

Local Open Scope float_scope.

Variable self : SensorSuite.

(** [read_mq4_raw]: the sample the ADC returns, an input of the model. *)
Definition read_mq4_raw (adc : Z) : Z := adc.

Definition voltage_from_raw (raw : Z) : result float :=
  r <- float_of_int raw ;;
  q <- truediv r 65535.0 ;;
  Ok (q * mq4_vref self).

Definition get_rs (adc : Z) (voltage : option float) : result float :=
  voltage <- match voltage with
             | None => voltage_from_raw (read_mq4_raw adc)
             | Some v => Ok v
             end ;;
  if voltage <=? 0 then Ok infinity
  else if geb voltage (mq4_vref self) then Ok 0.0
  else truediv (mq4_rl self * (mq4_vref self - voltage)) voltage.

(** The sampling loop of [calibrate_mq4_ro]; [adc i] is the sample returned
    by the i-th read of the pass.  [total_rs] is the int 0 until the first
    [+=] makes it a float. *)
Fixpoint calibrate_loop (adc : nat -> Z) (i n : nat) (total_rs : num)
  : result num :=
  match n with
  | O => Ok total_rs
  | S n' =>
      voltage <- voltage_from_raw (read_mq4_raw (adc i)) ;;
      rs <- get_rs (adc i) (Some voltage) ;;
      total_rs <- add_num total_rs rs ;;
      calibrate_loop adc (S i) n' (Flt total_rs)
  end.

(** [calibrate_mq4_ro(samples)]: the baseline and the updated suite.
    [range(samples)] is empty for samples <= 0, and [total_rs / samples] is
    then the quotient of the int 0 by the int [samples]. *)
Definition calibrate_mq4_ro (adc : nat -> Z) (samples : Z)
  : result (float * SensorSuite) :=
  total_rs <- calibrate_loop adc 0 (Z.to_nat samples) (Int 0) ;;
  avg_rs <- num_truediv_int total_rs samples ;;
  ro <- truediv_num avg_rs (mq4_ro_factor self) ;;
  Ok (ro, set_mq4_ro self (Some ro)).

Definition read_mq4_ratio (adc : Z) : result float :=
  match mq4_ro self with
  | None => Raise (RuntimeError UNCALIBRATED)
  | Some ro =>
      voltage <- voltage_from_raw (read_mq4_raw adc) ;;
      rs <- get_rs adc (Some voltage) ;;
      if negb (ro =? 0) then truediv rs ro else Ok infinity
  end.

End Sensor.

(** The suite [__main__] builds: [SensorSuite(dht_pin=15, mq4_adc_pin=26)]. *)
Definition default_suite : SensorSuite :=
  SensorSuite_init 10000.0%float 3.3%float None.

(** The resistance readings of a calibration pass, in the order taken:
    the values the loop of [calibrate_mq4_ro] adds up. *)
Fixpoint readings (self : SensorSuite) (adc : nat -> Z) (i n : nat)
  : result (list float) :=
  match n with
  | O => Ok []
  | S n' =>
      rs <- get_rs self (adc i) None ;;
      rest <- readings self adc (S i) n' ;;
      Ok (rs :: rest)
  end.

(** The resistance of a 16-bit sample, as a plain value. *)
Definition resistance (self : SensorSuite) (raw : Z) : float :=
  let voltage := (Z2float raw / 65535 * mq4_vref self)%float in
  if (voltage <=? 0)%float then infinity
  else if geb voltage (mq4_vref self) then 0%float
  else (mq4_rl self * (mq4_vref self - voltage) / voltage)%float.

(** ** Python's [**] on floats

    The special cases are decided by the interpreter before the C library
    is called, in this order (CPython's float power); [libm_pow] is the
    platform's [pow], reached only with a finite positive base other than 1
    and a finite nonzero exponent. *)

Inductive pow_result : Type :=
| PowFloat (f : float)
| PowComplex                (* negative base, fractional exponent *)
| PowRaise (e : exn).

Module Pow.

Local Open Scope float_scope.

(** [x != floor(x)] fails: [x] is a whole number. *)
Definition is_integer (x : float) : bool :=
  match Prim2SF x with
  | S754_zero _ => true
  | S754_finite _ m e =>
      if (0 <=? e)%Z then true else (Z.pos m mod 2 ^ (- e) =? 0)%Z
  | _ => false
  end.

(** [fmod(fabs(x), 2.0) == 1.0]. *)
Definition is_odd_integer (x : float) : bool :=
  match Prim2SF x with
  | S754_finite _ m e =>
      if (0 <? e)%Z then false
      else (Z.pos m mod 2 ^ (- e) =? 0)%Z && Z.odd (Z.pos m / 2 ^ (- e))
  | _ => false
  end.

Definition copysign (x y : float) : float :=
  if get_sign y then - abs x else abs x.

Section WithLibm.

Variable libm_pow : float -> float -> float.

Definition float_pow (iv iw : float) : pow_result :=
  if iw =? 0 then PowFloat 1.0
  else if is_nan iv then PowFloat iv
  else if is_nan iw then PowFloat (if iv =? 1.0 then 1.0 else iw)
  else if is_infinity iw then
    let iv := abs iv in
    if iv =? 1.0 then PowFloat 1.0
    else if Bool.eqb (gtb iw 0.0) (gtb iv 1.0) then PowFloat (abs iw)
    else PowFloat 0.0
  else if is_infinity iv then
    let iw_is_odd := is_odd_integer iw in
    if gtb iw 0.0 then PowFloat (if iw_is_odd then iv else abs iv)
    else PowFloat (if iw_is_odd then copysign 0.0 iv else 0.0)
  else if iv =? 0.0 then
    if iw <? 0.0 then PowRaise ZeroDivisionError
    else PowFloat (if is_odd_integer iw then iv else 0.0)
  else if (iv <? 0.0) && negb (is_integer iw) then PowComplex
  else
    let negate_result := (iv <? 0.0) && is_odd_integer iw in
    let iv := if iv <? 0.0 then - iv else iv in
    if iv =? 1.0 then PowFloat (if negate_result then -1.0 else 1.0)
    else
      let ix := libm_pow iv iw in
      if is_infinity ix then PowRaise OverflowError
      else PowFloat (if negate_result then - ix else ix).

End WithLibm.

End Pow.
Import Pow.

Section Estimation.

Local Open Scope float_scope.

Variable libm_pow : float -> float -> float.

(** [max(ppm, 0)]: 0 replaces [ppm] only when [0 > ppm]; the int 0 it then
    returns is used as 0.0 by every later operation. *)
Definition max_0 (ppm : float) : float :=
  if gtb 0 ppm then 0 else ppm.

(** [estimate_methane_ppm(ratio, a, b)].  A complex power stays complex
    under [a * _], and [max] of a complex raises TypeError. *)
Definition estimate_methane_ppm (ratio a b : float) : option float :=
  match float_pow libm_pow ratio b with
  | PowFloat p => let ppm := a * p in Some (max_0 ppm)
  | PowComplex => None
  | PowRaise _ => None
  end.

(** The call with the defaults [a=12, b=-0.5]. *)
Definition estimate_methane_ppm_default (ratio : float) : option float :=
  estimate_methane_ppm ratio 12 (-0.5).

(** [read_dht]: the driver's measurement, or the exception it raised. *)
Definition read_dht (dht : result (Z * Z)) : option Z * option Z * list string :=
  match dht with
  | Ok (t, h) => (Some t, Some h, [])
  | Raise e => (None, None, [("DHT11 read error: " ++ exn_str e)%string])
  end.

(** [read_all]: the three readings and the lines printed on the way. *)
Definition read_all (self : SensorSuite) (dht : result (Z * Z)) (adc : Z)
  : option Z * option Z * option float * list string :=
  let '(temp, humid, out) := read_dht dht in
  match read_mq4_ratio self adc with
  | Ok ratio => (temp, humid, estimate_methane_ppm_default ratio, out)
  | Raise e =>
      (temp, humid, None, out ++ [("MQ-4 read error: " ++ exn_str e)%string])
  end.

End Estimation.

(** ** Text formatting *)

Module Fmt.

Local Open Scope string_scope.

Definition str_of_Z (z : Z) : string := NilZero.string_of_int (Z.to_int z).

Fixpoint replicate (n : nat) (c : string) : string :=
  match n with
  | O => ""
  | S n' => c ++ replicate n' c
  end.

(** Nearest integer to [p / q] for [q > 0], ties to even. *)
Definition round_half_even (p q : Z) : Z :=
  let d := (p / q)%Z in
  let r := (p mod q)%Z in
  match (2 * r ?= q)%Z with
  | Lt => d
  | Gt => (d + 1)%Z
  | Eq => if Z.even d then d else (d + 1)%Z
  end.

(** The digits of a non-negative value scaled by [10^n], with the point. *)
Definition fixed_digits (n : nat) (scaled : Z) : string :=
  let unit := (10 ^ Z.of_nat n)%Z in
  let whole := str_of_Z (scaled / unit) in
  match n with
  | O => whole
  | _ =>
      let frac := str_of_Z (scaled mod unit) in
      whole ++ "." ++ replicate (n - String.length frac) "0" ++ frac
  end.

(** [format(x, ".nf")]: the exact value of the double, rounded to [n]
    decimals, ties to even. *)
Definition format_f (n : nat) (x : float) : string :=
  match Prim2SF x with
  | S754_nan => "nan"
  | S754_infinity s => if s then "-inf" else "inf"
  | S754_zero s => (if s then "-" else "") ++ fixed_digits n 0
  | S754_finite s m e =>
      let p := (Z.pos m * 10 ^ Z.of_nat n)%Z in
      let scaled := if (0 <=? e)%Z then (p * 2 ^ e)%Z
                    else round_half_even p (2 ^ (- e)) in
      (if s then "-" else "") ++ fixed_digits n scaled
  end.

End Fmt.
Import Fmt.

(** ** BananaLcdDisplay *)

(** Modelled from the spec: the display sink ([I2cLcd] of [mylib2], a driver
    outside the sources) exposes clear, cursor positioning and text writing,
    synchronous and non-failing.  A render is the sequence of driver calls. *)
Inductive lcd_call : Type :=
| Lcd_clear
| Lcd_move_to (col row : Z)
| Lcd_putstr (text : string).

Record BananaLcdDisplay : Type := mkDisplay {
  current_screen : Z
}.

Section Display.

Local Open Scope string_scope.

(** [text[:stop]]: a negative [stop] counts from the end of the text. *)
Definition slice_to (text : string) (stop : Z) : string :=
  let n := Z.of_nat (String.length text) in
  let stop := if (stop <? 0)%Z then Z.max 0 (n + stop) else Z.min stop n in
  substring 0 (Z.to_nat stop) text.

(** [pad(text, length=16)] *)
Definition pad (text : string) (length : Z) : string :=
  if (Z.of_nat (String.length text) <? length)%Z
  then text ++ replicate (Z.to_nat (length - Z.of_nat (String.length text))) " "
  else slice_to text length.

Definition display_screen_1 (temperature humidity : option num)
  : list lcd_call :=
  let temp_str :=
    match temperature with
    | None => "Temp: N/A"
    | Some t =>
        match float_of_num t with
        | Ok f => "Temp: " ++ format_f 1 f ++ "C"
        | Raise _ => "Temp: N/A"
        end
    end in
  let humid_str :=
    match humidity with
    | None => "Humidity: N/A"
    | Some h =>
        match (f <- float_of_num h ;; int_of_float f) with
        | Ok humid_val => "Humidity: " ++ str_of_Z humid_val ++ "%"
        | Raise _ => "Humidity: N/A"
        end
    end in
  [Lcd_clear;
   Lcd_move_to 0 0; Lcd_putstr (pad temp_str 16);
   Lcd_move_to 0 1; Lcd_putstr (pad humid_str 16)].

Definition display_screen_2 (methane : option num) (shelf_life : option string)
  : list lcd_call :=
  let methane_str :=
    match methane with
    | None => "Methane: N/A"
    | Some m =>
        match float_of_num m with
        | Ok methane_val => "Methane: " ++ format_f 2 methane_val ++ "ppm"
        | Raise _ => "Methane: N/A"
        end
    end in
  let shelf_str :=
    match shelf_life with
    | Some s => s
    | None => "Shelf Life: N/A"
    end in
  [Lcd_clear;
   Lcd_move_to 0 0; Lcd_putstr (pad methane_str 16);
   Lcd_move_to 0 1; Lcd_putstr (pad shelf_str 16)].

Definition update (self : BananaLcdDisplay)
    (temperature humidity methane : option num) (shelf_life : option string)
  : BananaLcdDisplay * list lcd_call :=
  if (current_screen self =? 0)%Z
  then (mkDisplay 1, display_screen_1 temperature humidity)
  else (mkDisplay 0, display_screen_2 methane shelf_life).

End Display.

(** ** The main loop *)

Definition METHANE_FRESH : Z := 8.
Definition METHANE_EARLY : Z := 10.
Definition METHANE_ACTIVE : Z := 12.

Record Monitor : Type := mkMonitor {
  sensors : SensorSuite;
  display : BananaLcdDisplay;
  methane_history : list float
}.

Section MainLoop.

Local Open Scope float_scope.

Variable libm_pow : float -> float -> float.

(** [x < z] for an int [z]; the thresholds convert exactly. *)
Definition ltb_int (x : float) (z : Z) : bool := x <? Z2float z.

(** The smoothing block: the new history and [methane_avg]. *)
Definition smooth (methane_history : list float) (methane : option float)
  : result (list float * option float) :=
  match methane with
  | Some m =>
      let h := methane_history ++ [m] in
      let h := if (5 <? List.length h)%nat then tl h else h in
      avg <- truediv_num (py_sum h) (Int (Z.of_nat (List.length h))) ;;
      Ok (h, Some avg)
  | None => Ok (methane_history, None)
  end.

(** The threshold block: [shelf_life] from [methane_avg]. *)
Definition classify (methane_avg : option float) : string :=
  match methane_avg with
  | None => "Unknown"
  | Some v =>
      if ltb_int v METHANE_FRESH then "5-7 Days"
      else if ltb_int v METHANE_EARLY then "3-5 Days"
      else if ltb_int v METHANE_ACTIVE then "1-3 Days"
      else "0 Days"
  end.

(** The status [print]: the format [{methane_avg:.2f}] raises TypeError on
    None; the text written is not modelled. *)
Definition print_status (methane_avg : option float) : result unit :=
  match methane_avg with
  | Some _ => Ok tt
  | None => Raise TypeError
  end.

(** [methane_avg or 0], the value handed to the display. *)
Definition or_0 (methane_avg : option float) : num :=
  py_or (option_map Flt methane_avg) (Int 0).

Definition opt_result {A B : Type} (f : A -> result B) (x : option A)
  : result (option B) :=
  match x with
  | Some a => b <- f a ;; Ok (Some b)
  | None => Ok None
  end.

(** One iteration of [while True]: the new state, the lines the sensor
    suite printed and the display calls.  A raised exception is not caught
    by the loop (only KeyboardInterrupt is) and ends the process. *)
Definition cycle (st : Monitor) (dht : result (Z * Z)) (adc : Z)
  : result (Monitor * list string * list lcd_call) :=
  let '(temp, humidity, methane, out) := read_all libm_pow (sensors st) dht adc in
  temp_val <- opt_result float_of_int temp ;;
  humid_val <- opt_result (fun h => f <- float_of_int h ;; int_of_float f) humidity ;;
  sm <- smooth (methane_history st) methane ;;
  let '(history, methane_avg) := sm in
  let shelf_life := classify methane_avg in
  _ <- print_status methane_avg ;;
  let '(disp, calls) :=
    update (display st) (option_map Flt temp_val) (option_map Int humid_val)
           (Some (or_0 methane_avg)) (Some shelf_life) in
  Ok (mkMonitor (sensors st) disp history, out, calls).

(** The cycles run on a list of inputs, stopping at the first exception. *)
Fixpoint run (st : Monitor) (inputs : list (result (Z * Z) * Z))
  : result (Monitor * list (list lcd_call)) :=
  match inputs with
  | [] => Ok (st, [])
  | (dht, adc) :: rest =>
      r <- cycle st dht adc ;;
      let '(st1, _, calls) := r in
      r2 <- run st1 rest ;;
      let '(st2, frames) := r2 in
      Ok (st2, calls :: frames)
  end.

(** The window pushed with a list of readings, one cycle each. *)
Fixpoint push_all (h : list float) (avg : option float) (vs : list float)
  : result (list float * option float) :=
  match vs with
  | [] => Ok (h, avg)
  | v :: vs' =>
      r <- smooth h (Some v) ;;
      let '(h', avg') := r in
      push_all h' avg' vs'
  end.

(** The start of [__main__]: the default suite calibrated with 50 samples,
    the display on its first screen, an empty history. *)
Definition main_start (adc : nat -> Z) : result Monitor :=
  r <- calibrate_mq4_ro default_suite adc 50 ;;
  Ok (mkMonitor (snd r) (mkDisplay 0) []).

End MainLoop.

(** The last [n] elements of a list. *)
Definition last_n {A : Type} (n : nat) (l : list A) : list A :=
  skipn (List.length l - n) l.

(** The arithmetic mean in float arithmetic: sum, then one division. *)
Definition mean (l : list float) : float :=
  (py_sum l / Z2float (Z.of_nat (List.length l)))%float.

(** The text written on a row of the display by a render. *)
Fixpoint line_at (row : Z) (calls : list lcd_call) : option string :=
  match calls with
  | [] => None
  | Lcd_move_to _ r :: rest =>
      match rest with
      | Lcd_putstr text :: _ => if r =? row then Some text else line_at row rest
      | _ => line_at row rest
      end
  | _ :: rest => line_at row rest
  end.

(** ** Auxiliary definitions for the properties of the whole program *)

(** [n] consecutive integers from [start]. *)
Fixpoint zrange (start : Z) (n : nat) : list Z :=
  match n with
  | O => []
  | S n' => start :: zrange (start + 1) n'
  end.

(** A test holds of every 16-bit sample. *)
Definition u16_all (f : Z -> bool) : bool :=
  forallb f (zrange 0 (Z.to_nat 65536)).

(** What is checked of each 16-bit sample [r] on the default suite: the
    voltage lies in [0, vref] and does not decrease at the next sample; the
    resistance is not negative, does not increase at the next sample, is
    infinite only for [r = 0] and zero only for [r = 65535]; and
    [int(float(r))] is [r]. *)
Definition u16_check (r : Z) : bool :=
  match voltage_from_raw default_suite r,
        voltage_from_raw default_suite (r + 1),
        get_rs default_suite r None,
        get_rs default_suite (r + 1) None with
  | Ok v, Ok v', Ok rs, Ok rs' =>
      (0 <=? v)%float && (v <=? mq4_vref default_suite)%float &&
      ((r =? 65535) || (v <=? v')%float) &&
      (0 <=? rs)%float && ((r =? 65535) || (rs' <=? rs)%float) &&
      Bool.eqb (is_infinity rs) (r =? 0) &&
      Bool.eqb (rs =? 0)%float (r =? 65535) &&
      match (f <- float_of_int r ;; int_of_float f) with
      | Ok z => z =? r
      | Raise _ => false
      end
  | _, _, _, _ => false
  end.

(** A sequence of [update] calls: the final controller and the renders. *)
Fixpoint updates (self : BananaLcdDisplay)
    (args : list (option num * option num * option num * option string))
  : BananaLcdDisplay * list (list lcd_call) :=
  match args with
  | [] => (self, [])
  | (temperature, humidity, methane, shelf_life) :: rest =>
      let '(self1, calls) := update self temperature humidity methane shelf_life in
      let '(self2, frames) := updates self1 rest in
      (self2, calls :: frames)
  end.

(** The order of the shelf-life labels, freshest first. *)
Definition bucket_rank (label : string) : nat :=
  if (label =? "5-7 Days")%string then 0
  else if (label =? "3-5 Days")%string then 1
  else if (label =? "1-3 Days")%string then 2
  else if (label =? "0 Days")%string then 3
  else 4.

(** The methane values the cycles of a run read, in order. *)
Definition methane_of (libm_pow : float -> float -> float) (self : SensorSuite)
    (input : result (Z * Z) * Z) : option float :=
  snd (fst (read_all libm_pow self (fst input) (snd input))).

(** A DHT measurement whose two values fit in 16 bits, or a failed one. *)
Definition dht_16bit (dht : result (Z * Z)) : Prop :=
  match dht with
  | Ok (t, h) => 0 <= t <= 65535 /\ 0 <= h <= 65535
  | Raise _ => True
  end.

(** * Properties *)

(** ** Order facts on binary64 values *)

Module FloatOrder.

Local Open Scope float_scope.

Lemma SFcompare_antisym (a b : spec_float) :
  SFcompare b a = option_map CompOpp (SFcompare a b).
Proof.
  destruct a as [sa| sa | | sa ma ea], b as [sb | sb | | sb mb eb];
    simpl; try reflexivity;
    try (destruct sa; reflexivity); try (destruct sb; reflexivity);
    try (destruct sa, sb; reflexivity).
  unfold SFcompare, option_map.
  destruct sa, sb; try reflexivity;
    rewrite (Z.compare_antisym ea eb);
    destruct (Z.compare ea eb); try reflexivity;
    change (Pos.compare_cont Eq mb ma) with (Pos.compare mb ma);
    change (Pos.compare_cont Eq ma mb) with (Pos.compare ma mb);
    rewrite (Pos.compare_antisym ma mb);
    destruct (Pos.compare ma mb); reflexivity.
Qed.

(** [a <= v] excludes [v < a]. *)
Lemma leb_not_ltb (a v : float) : (a <=? v) = true -> (v <? a) = false.
Proof.
  rewrite leb_spec, ltb_spec. unfold SFleb, SFltb.
  rewrite (SFcompare_antisym (Prim2SF a) (Prim2SF v)).
  destruct (SFcompare (Prim2SF a) (Prim2SF v)) as [[ | | ]|];
    simpl; congruence.
Qed.

(** [v < a] excludes [a <= v]. *)
Lemma ltb_not_leb (a v : float) : (v <? a) = true -> (a <=? v) = false.
Proof.
  intros H. destruct (a <=? v) eqn:E; [|reflexivity].
  apply leb_not_ltb in E. congruence.
Qed.

Lemma Prim2SF_0 : Prim2SF 0 = S754_zero false.
Proof. reflexivity. Qed.

(** A value that is not [<= 0] is not a zero. *)
Lemma not_leb_0_nonzero (v : float) : (v <=? 0) = false -> (v =? 0) = false.
Proof.
  rewrite leb_spec, eqb_spec, Prim2SF_0. unfold SFleb, SFeqb.
  destruct (Prim2SF v) as [s | s | | s m e]; simpl;
    try destruct s; simpl; congruence.
Qed.

(** Above a positive bound, a value is not [<= 0]. *)
Lemma above_positive (b v : float) :
  (0 <? b) = true -> (b <=? v) = true -> (v <=? 0) = false.
Proof.
  rewrite ltb_spec, !leb_spec, Prim2SF_0. unfold SFleb, SFltb.
  destruct (Prim2SF b) as [sb | sb | | sb mb eb],
           (Prim2SF v) as [sv | sv | | sv mv ev]; simpl;
    try destruct sb; try destruct sv; simpl; congruence.
Qed.

End FloatOrder.
Import FloatOrder.

(** ** GasResistanceModel *)

Lemma float_of_int_u16 (r : Z) :
  0 <= r <= 65535 -> float_of_int r = Ok (Z2float r).
Proof.
  intros H. unfold float_of_int.
  assert (Hb : 65535 < int_max_float) by reflexivity.
  destruct (Z.ltb_spec (Z.abs r) int_max_float) as [_|Hge]; [reflexivity|].
  rewrite Z.abs_eq in Hge by lia. lia.
Qed.

Lemma voltage_from_raw_u16 (self : SensorSuite) (r : Z) :
  0 <= r <= 65535 ->
  voltage_from_raw self r = Ok (Z2float r / 65535 * mq4_vref self)%float.
Proof.
  intros H. unfold voltage_from_raw.
  rewrite (float_of_int_u16 r H). reflexivity.
Qed.

(** Without a voltage, [get_rs] samples the ADC first. *)
Lemma get_rs_None (self : SensorSuite) (adc : Z) :
  get_rs self adc None =
  voltage <- voltage_from_raw self adc ;; get_rs self adc (Some voltage).
Proof. reflexivity. Qed.

(** [get_rs] on a given voltage never raises. *)
Lemma get_rs_total (self : SensorSuite) (adc : Z) (v : float) :
  get_rs self adc (Some v) =
  Ok (if v <=? 0 then infinity
      else if geb v (mq4_vref self) then 0
      else mq4_rl self * (mq4_vref self - v) / v)%float.
Proof.
  unfold get_rs, bind.
  destruct (v <=? 0)%float eqn:E0; [reflexivity|].
  destruct (geb v (mq4_vref self)); [reflexivity|].
  unfold truediv. rewrite (not_leb_0_nonzero v E0). reflexivity.
Qed.

(** C9: for every raw sample r the voltage is (r / 65535) * vref, and the
    resistance of a voltage is produced without an error: +infinity when
    voltage <= 0, exactly 0 when voltage >= vref, and
    rl * (vref - voltage) / voltage otherwise (for a positive reference
    voltage, which keeps the first two cases apart). *)
Theorem resistance_model_total (self : SensorSuite) (r : Z) (v : float) :
  0 <= r <= 65535 ->
  (0 <? mq4_vref self)%float = true ->
  voltage_from_raw self r = Ok (Z2float r / 65535 * mq4_vref self)%float /\
  (forall adc, get_rs self adc None = voltage <- voltage_from_raw self adc ;;
                                      get_rs self adc (Some voltage)) /\
  ((v <=? 0)%float = true -> forall adc, get_rs self adc (Some v) = Ok infinity) /\
  (geb v (mq4_vref self) = true ->
     forall adc, get_rs self adc (Some v) = Ok 0%float) /\
  ((v <=? 0)%float = false -> geb v (mq4_vref self) = false ->
     forall adc, get_rs self adc (Some v) =
                 Ok (mq4_rl self * (mq4_vref self - v) / v)%float).
Proof.
  intros Hr Hvref. split; [exact (voltage_from_raw_u16 self r Hr)|].
  split; [intros adc; reflexivity|].
  repeat split; intros; rewrite get_rs_total.
  - rewrite H. reflexivity.
  - rewrite (above_positive _ _ Hvref H), H. reflexivity.
  - rewrite H, H0. reflexivity.
Qed.

(** Witness of C9: the mid-scale sample on the default suite. *)
Lemma resistance_model_total_witness :
  voltage_from_raw default_suite 32768 =
  Ok (Z2float 32768 / 65535 * mq4_vref default_suite)%float.
Proof.
  apply (resistance_model_total default_suite 32768 1.65%float);
    [lia | reflexivity].
Defined.

Lemma get_rs_u16 (self : SensorSuite) (raw : Z) :
  0 <= raw <= 65535 -> get_rs self raw None = Ok (resistance self raw).
Proof.
  intros H. unfold get_rs, read_mq4_raw.
  rewrite (voltage_from_raw_u16 self raw H).
  change (get_rs self raw (Some (Z2float raw / 65535 * mq4_vref self)%float)
          = Ok (resistance self raw)).
  rewrite get_rs_total. reflexivity.
Qed.

(** ** Calibrator *)

Lemma add_num_0 (x : float) : add_num (Int 0) x = Ok (0 + x)%float.
Proof. reflexivity. Qed.

Lemma calibrate_loop_flt (self : SensorSuite) (adc : nat -> Z) (n : nat) :
  forall i total,
    calibrate_loop self adc i n (Flt total) =
    rs <- readings self adc i n ;; Ok (Flt (fold_left PrimFloat.add rs total)).
Proof.
  induction n as [|n IH]; intros i total; [reflexivity|].
  cbn [calibrate_loop readings]. rewrite get_rs_None. unfold read_mq4_raw.
  destruct (voltage_from_raw self (adc i)) as [v|e]; [|reflexivity].
  cbn [bind]. rewrite (get_rs_total self (adc i) v).
  cbn [bind add_num float_of_num]. rewrite IH.
  destruct (readings self adc (S i) n) as [rest|e]; reflexivity.
Qed.

Lemma calibrate_loop_sum (self : SensorSuite) (adc : nat -> Z) (n : nat) :
  forall i,
    calibrate_loop self adc i n (Int 0) =
    rs <- readings self adc i n ;; Ok (py_sum_num rs).
Proof.
  destruct n as [|n]; intros i; [reflexivity|].
  cbn [calibrate_loop readings]. rewrite get_rs_None. unfold read_mq4_raw.
  destruct (voltage_from_raw self (adc i)) as [v|e]; [|reflexivity].
  cbn [bind]. rewrite (get_rs_total self (adc i) v). cbn [bind].
  rewrite add_num_0. cbn [bind]. rewrite calibrate_loop_flt.
  destruct (readings self adc (S i) n) as [rest|e]; reflexivity.
Qed.

Lemma readings_u16 (self : SensorSuite) (adc : nat -> Z) (n : nat) :
  (forall i, 0 <= adc i <= 65535) ->
  forall i, readings self adc i n =
            Ok (map (fun k => resistance self (adc k)) (seq i n)).
Proof.
  intros H. induction n as [|n IH]; intros i; [reflexivity|].
  cbn [readings seq map]. rewrite (get_rs_u16 self (adc i) (H i)).
  cbn [bind]. rewrite IH. reflexivity.
Qed.

Lemma truediv_num_50 (x : float) : truediv_num x (Int 50) = Ok (x / 50)%float.
Proof. reflexivity. Qed.

Lemma py_sum_num_seq_50 (f : nat -> float) :
  py_sum_num (map f (seq 0 50)) = Flt (py_sum (map f (seq 0 50))).
Proof. reflexivity. Qed.

Lemma map_const_seq {A : Type} (c : A) (n : nat) :
  forall i, map (fun _ => c) (seq i n) = repeat c n.
Proof.
  induction n as [|n IH]; intros i; [reflexivity|].
  cbn [seq map repeat]. rewrite IH. reflexivity.
Qed.

Lemma truediv_num_4 (x : float) : truediv_num x (Flt 4) = Ok (x / 4)%float.
Proof. reflexivity. Qed.

(** C6 (amended): [calibrate_mq4_ro(samples)] sets the baseline to
    (sum of the [samples] resistance readings / samples) / clean-air factor
    in Python's binary64 arithmetic, whatever the previous baseline was,
    raising where a division does; with 16-bit samples, 50 of them and the
    factor 4.0 it returns (sum / 50) / 4.0; a constant stream of value V
    gives ((V + ... + V) / samples) / factor, which is V / 4.0 for fifty
    mid-scale samples; a negative count takes no reading and gives
    -0.0 / factor. *)
Theorem calibrate_mq4_ro_baseline (self : SensorSuite) (adc : nat -> Z) (samples : Z) :
  calibrate_mq4_ro self adc samples =
    (rs <- readings self adc 0 (Z.to_nat samples) ;;
     avg_rs <- num_truediv_int (py_sum_num rs) samples ;;
     ro <- truediv_num avg_rs (mq4_ro_factor self) ;;
     Ok (ro, set_mq4_ro self (Some ro))) /\
  (forall ro self',
     calibrate_mq4_ro self adc samples = Ok (ro, self') ->
     mq4_ro self' = Some ro /\ self' = set_mq4_ro self (Some ro)) /\
  ((forall i, 0 <= adc i <= 65535) -> mq4_ro_factor self = Flt 4 ->
   let rs := map (fun k => resistance self (adc k)) (seq 0 50) in
   let ro := (py_sum rs / 50 / 4)%float in
   calibrate_mq4_ro self adc 50 = Ok (ro, set_mq4_ro self (Some ro))) /\
  (forall r, 0 <= r <= 65535 ->
   calibrate_mq4_ro self (fun _ => r) samples =
   (avg_rs <- num_truediv_int
                (py_sum_num (repeat (resistance self r) (Z.to_nat samples)))
                samples ;;
    ro <- truediv_num avg_rs (mq4_ro_factor self) ;;
    Ok (ro, set_mq4_ro self (Some ro)))) /\
  (forall r, 0 <= r <= 65535 -> mq4_ro_factor self = Flt 4 ->
   let ro := (py_sum (repeat (resistance self r) 50) / 50 / 4)%float in
   calibrate_mq4_ro self (fun _ => r) 50 = Ok (ro, set_mq4_ro self (Some ro))) /\
  (samples < 0 ->
   calibrate_mq4_ro self adc samples =
   (ro <- truediv_num (-0) (mq4_ro_factor self) ;;
    Ok (ro, set_mq4_ro self (Some ro)))) /\
  calibrate_mq4_ro default_suite (fun _ => 32768) 50 =
    Ok ((resistance default_suite 32768 / 4)%float,
        set_mq4_ro default_suite
          (Some (resistance default_suite 32768 / 4)%float)).
Proof.
  assert (Heq : calibrate_mq4_ro self adc samples =
    (rs <- readings self adc 0 (Z.to_nat samples) ;;
     avg_rs <- num_truediv_int (py_sum_num rs) samples ;;
     ro <- truediv_num avg_rs (mq4_ro_factor self) ;;
     Ok (ro, set_mq4_ro self (Some ro)))).
  { unfold calibrate_mq4_ro. rewrite calibrate_loop_sum.
    destruct (readings self adc 0 (Z.to_nat samples)); reflexivity. }
  assert (H50 : forall adc', (forall i, 0 <= adc' i <= 65535) ->
            mq4_ro_factor self = Flt 4 ->
            let rs := map (fun k => resistance self (adc' k)) (seq 0 50) in
            let ro := (py_sum rs / 50 / 4)%float in
            calibrate_mq4_ro self adc' 50 = Ok (ro, set_mq4_ro self (Some ro))).
  { intros adc' Hadc Hfac rs ro. unfold calibrate_mq4_ro.
    rewrite calibrate_loop_sum.
    change (Z.to_nat 50) with 50%nat.
    rewrite (readings_u16 self adc' 50 Hadc 0). cbn [bind].
    rewrite py_sum_num_seq_50. cbn [num_truediv_int].
    rewrite truediv_num_50. cbn [bind]. rewrite Hfac, truediv_num_4.
    reflexivity. }
  split; [exact Heq|]. split; [|split; [|split; [|split; [|split]]]].
  - intros ro self' H. unfold calibrate_mq4_ro in H.
    destruct (calibrate_loop self adc 0 (Z.to_nat samples) (Int 0)) as [t|];
      [|discriminate].
    cbn [bind] in H.
    destruct (num_truediv_int t samples) as [a|]; [|discriminate].
    cbn [bind] in H.
    destruct (truediv_num a (mq4_ro_factor self)) as [r|]; [|discriminate].
    cbn [bind] in H. injection H as <- <-. split; reflexivity.
  - exact (H50 adc).
  - intros r Hr. unfold calibrate_mq4_ro. rewrite calibrate_loop_sum.
    rewrite (readings_u16 self (fun _ => r) (Z.to_nat samples) (fun _ => Hr) 0).
    rewrite (map_const_seq (resistance self r) (Z.to_nat samples) 0).
    reflexivity.
  - intros r Hr Hfac.
    pose proof (H50 (fun _ => r) (fun _ => Hr) Hfac) as H.
    cbv beta zeta in H. rewrite (map_const_seq (resistance self r) 50 0) in H.
    exact H.
  - intros Hneg. destruct samples as [|p|p]; try lia. reflexivity.
  - vm_compute. reflexivity.
Qed.

(** Witness of C6: fifty mid-scale samples on the default suite. *)
Lemma calibrate_mq4_ro_baseline_witness :
  let rs := map (fun k => resistance default_suite 32768) (seq 0 50) in
  let ro := (py_sum rs / 50 / 4)%float in
  calibrate_mq4_ro default_suite (fun _ => 32768) 50 =
  Ok (ro, set_mq4_ro default_suite (Some ro)).
Proof.
  pose proof (calibrate_mq4_ro_baseline default_suite (fun _ => 32768) 50)
    as (_ & _ & H & _).
  apply H; [intros _; lia | reflexivity].
Defined.

(** C6 (as stated) fails: fifty samples of the constant raw value 7 give a
    constant resistance V, and the baseline differs from V / 4.0. *)
Lemma calibrate_constant_stream_inexact :
  get_rs default_suite 7 None = Ok 93611428.571428567%float /\
  option_map fst
    (match calibrate_mq4_ro default_suite (fun _ => 7) 50 with
     | Ok r => Some r | Raise _ => None end)
  = Some 23402857.142857157%float /\
  (93611428.571428567 / 4.0 =? 23402857.142857157)%float = false.
Proof. vm_compute. repeat split. Qed.

(** C10: a constructor argument of 0 gives the same suite as no argument,
    so calibration divides by 4.0; whatever the argument, the stored factor
    is not 0. *)
Theorem clean_air_factor_never_zero (rl vref : float) :
  SensorSuite_init rl vref (Some (Int 0)) = SensorSuite_init rl vref None /\
  mq4_ro_factor (SensorSuite_init rl vref (Some (Int 0))) = Flt 4 /\
  mq4_ro_factor (SensorSuite_init rl vref (Some (Flt 0))) = Flt 4 /\
  (forall avg_rs,
     truediv_num avg_rs (mq4_ro_factor (SensorSuite_init rl vref (Some (Int 0))))
     = Ok (avg_rs / 4)%float) /\
  (forall adc samples,
     calibrate_mq4_ro (SensorSuite_init rl vref (Some (Int 0))) adc samples =
     calibrate_mq4_ro (SensorSuite_init rl vref None) adc samples) /\
  (forall arg, num_is_0 (mq4_ro_factor (SensorSuite_init rl vref arg)) = false).
Proof.
  repeat split.
  intros [x|]; [|reflexivity].
  unfold SensorSuite_init, py_or, truthy. cbn [mq4_ro_factor].
  destruct (num_is_0 x) eqn:E; [reflexivity|exact E].
Qed.

(** ** MethaneEstimator *)

(** A calibrated suite never raises the uncalibrated error; the only
    exception left is the overflow of an out-of-range sample. *)
Lemma read_mq4_ratio_calibrated (self : SensorSuite) (ro : float) (adc : Z) :
  mq4_ro self = Some ro ->
  (exists ratio, read_mq4_ratio self adc = Ok ratio) \/
  read_mq4_ratio self adc = Raise OverflowError.
Proof.
  intros H. unfold read_mq4_ratio. rewrite H.
  unfold voltage_from_raw, read_mq4_raw, float_of_int.
  destruct (Z.abs adc <? int_max_float); [|right; reflexivity].
  cbn [bind]. change (truediv (Z2float adc) 65535) with (Ok (Z2float adc / 65535)%float).
  cbn [bind]. rewrite get_rs_total. cbn [bind].
  destruct (ro =? 0)%float eqn:E; cbn [negb].
  - left. eexists. reflexivity.
  - unfold truediv. rewrite E. left. eexists. reflexivity.
Qed.

Lemma read_mq4_ratio_u16 (self : SensorSuite) (ro : float) (adc : Z) :
  mq4_ro self = Some ro -> 0 <= adc <= 65535 ->
  read_mq4_ratio self adc =
  Ok (if (ro =? 0)%float then infinity else (resistance self adc / ro)%float).
Proof.
  intros H Hadc. unfold read_mq4_ratio. rewrite H.
  unfold read_mq4_raw. rewrite (voltage_from_raw_u16 self adc Hadc).
  cbn [bind]. rewrite get_rs_total. cbn [bind].
  fold (resistance self adc).
  destruct (ro =? 0)%float eqn:E; cbn [negb]; [reflexivity|].
  unfold truediv. rewrite E. reflexivity.
Qed.

(** C5: before calibration the ratio read raises the uncalibrated
    RuntimeError, whatever the ADC holds; [read_all] reports it on its
    output and returns no methane value; a calibrated suite never raises
    that error and prints nothing for a 16-bit sample, and the report of a
    failed DHT read is a different line. *)
Theorem uncalibrated_is_signalled (libm_pow : float -> float -> float)
    (self : SensorSuite) (dht : result (Z * Z)) (adc : Z) :
  mq4_ro self = None ->
  read_mq4_ratio self adc = Raise (RuntimeError UNCALIBRATED) /\
  (exists temp humid out,
     read_all libm_pow self dht adc =
     (temp, humid, None, out ++ [("MQ-4 read error: " ++ UNCALIBRATED)%string])) /\
  (forall self' ro adc',
     mq4_ro self' = Some ro ->
     read_mq4_ratio self' adc' <> Raise (RuntimeError UNCALIBRATED)) /\
  (forall self' ro adc' t h,
     mq4_ro self' = Some ro -> 0 <= adc' <= 65535 ->
     snd (read_all libm_pow self' (Ok (t, h)) adc') = []) /\
  (forall e, ("DHT11 read error: " ++ exn_str e)%string
             <> ("MQ-4 read error: " ++ UNCALIBRATED)%string).
Proof.
  intros H.
  assert (Hr : read_mq4_ratio self adc = Raise (RuntimeError UNCALIBRATED)).
  { unfold read_mq4_ratio. rewrite H. reflexivity. }
  split; [exact Hr|]. split.
  - unfold read_all. rewrite Hr.
    destruct (read_dht dht) as [[temp humid] out].
    exists temp, humid, out. reflexivity.
  - split; [|split].
    + intros self' ro adc' H'.
      destruct (read_mq4_ratio_calibrated self' ro adc' H') as [[r Hk]|Hk];
        rewrite Hk; discriminate.
    + intros self' ro adc' t h H' Hadc. unfold read_all.
      rewrite (read_mq4_ratio_u16 self' ro adc' H' Hadc). reflexivity.
    + intros e. discriminate.
Qed.

(** Witness of C5: the freshly built default suite. *)
Lemma uncalibrated_is_signalled_witness :
  read_mq4_ratio default_suite 32768 = Raise (RuntimeError UNCALIBRATED).
Proof.
  apply (uncalibrated_is_signalled (fun _ _ => nan) default_suite
           (Ok (25, 80)) 32768).
  reflexivity.
Defined.

(** C7: with the default curve, a ratio of 0 is dropped (None) and a ratio
    of +infinity gives 0.0; no exception leaves [estimate_methane_ppm].
    Both ratios occur: a full-scale sample reads as ratio 0, a zero sample
    or a zero baseline as ratio +infinity. *)
Theorem estimate_degenerate_inputs (libm_pow : float -> float -> float) :
  estimate_methane_ppm_default libm_pow 0 = None /\
  estimate_methane_ppm_default libm_pow (-0) = None /\
  estimate_methane_ppm_default libm_pow infinity = Some 0%float /\
  float_pow libm_pow 0 (-0.5) = PowRaise ZeroDivisionError /\
  float_pow libm_pow infinity (-0.5) = PowFloat 0 /\
  read_mq4_ratio (set_mq4_ro default_suite (Some 2500%float)) 65535 = Ok 0%float /\
  read_mq4_ratio (set_mq4_ro default_suite (Some 2500%float)) 0 = Ok infinity /\
  read_mq4_ratio (set_mq4_ro default_suite (Some 0%float)) 32768 = Ok infinity.
Proof. repeat split. Qed.

(** ** SmoothingFilter *)

Lemma last_n_short {A : Type} (n : nat) (l : list A) :
  (List.length l <= n)%nat -> last_n n l = l.
Proof.
  intros H. unfold last_n.
  replace (List.length l - n)%nat with 0%nat by lia. reflexivity.
Qed.

Lemma last_n_length {A : Type} (n : nat) (l : list A) :
  (List.length (last_n n l) <= n)%nat.
Proof. unfold last_n. rewrite length_skipn. lia. Qed.

Lemma last_n_app {A : Type} (n : nat) (a b : list A) :
  last_n n (last_n n a ++ b) = last_n n (a ++ b).
Proof.
  unfold last_n.
  replace (skipn (List.length a - n) a ++ b)
    with (skipn (List.length a - n) (a ++ b)).
  - rewrite skipn_skipn, length_skipn, length_app. f_equal. lia.
  - rewrite skipn_app.
    replace (List.length a - n - List.length a)%nat with 0%nat by lia.
    reflexivity.
Qed.

Lemma tl_skipn {A : Type} (l : list A) : tl l = skipn 1 l.
Proof. destruct l; reflexivity. Qed.

(** The division by a window length of 1 to 5 never raises. *)
Lemma truediv_num_len (x : float) (n : nat) :
  (1 <= n <= 5)%nat ->
  truediv_num x (Int (Z.of_nat n)) = Ok (x / Z2float (Z.of_nat n))%float.
Proof.
  intros H.
  assert (E : n = 1%nat \/ n = 2%nat \/ n = 3%nat \/ n = 4%nat \/ n = 5%nat) by lia.
  destruct E as [->|[->|[->|[->| ->]]]]; reflexivity.
Qed.

(** A push on a window within capacity: the last five values, and their mean. *)
Lemma smooth_push (h : list float) (m : float) :
  (List.length h <= 5)%nat ->
  smooth h (Some m) =
  Ok (last_n 5 (h ++ [m]), Some (mean (last_n 5 (h ++ [m])))).
Proof.
  intros H. unfold smooth.
  assert (Hw : (if (5 <? List.length (h ++ [m]))%nat then tl (h ++ [m]) else h ++ [m])
               = last_n 5 (h ++ [m])).
  { unfold last_n. rewrite length_app. cbn [List.length].
    destruct (Nat.ltb_spec 5 (List.length h + 1)) as [Hlt|Hge].
    - replace (List.length h + 1 - 5)%nat with 1%nat by lia. apply tl_skipn.
    - replace (List.length h + 1 - 5)%nat with 0%nat by lia. reflexivity. }
  rewrite Hw.
  rewrite truediv_num_len.
  - reflexivity.
  - unfold last_n. rewrite length_skipn, length_app. cbn [List.length]. lia.
Qed.

Lemma push_all_window (vs : list float) :
  forall h avg0, (List.length h <= 5)%nat ->
    exists avg, push_all h avg0 vs = Ok (last_n 5 (h ++ vs), avg).
Proof.
  induction vs as [|v vs IH]; intros h avg0 H.
  - exists avg0. cbn [push_all]. rewrite app_nil_r, last_n_short by exact H.
    reflexivity.
  - cbn [push_all]. rewrite (smooth_push h v H). cbn [bind].
    destruct (IH (last_n 5 (h ++ [v])) (Some (mean (last_n 5 (h ++ [v]))))
                 (last_n_length 5 _)) as [avg Ha].
    exists avg. rewrite Ha, last_n_app, <- app_assoc. reflexivity.
Qed.

(** C8: a push keeps at most five values, the most recent ones (the oldest
    is evicted by a sixth); pushing 1..6 on the empty window leaves
    [2;3;4;5;6] and the average 4.0. *)
Theorem smoothing_window_fifo :
  (forall h m, (List.length h <= 5)%nat ->
     exists h', smooth h (Some m) = Ok (h', Some (mean h')) /\
                h' = last_n 5 (h ++ [m]) /\ (List.length h' <= 5)%nat) /\
  (forall a b c d e m,
     smooth [a; b; c; d; e] (Some m) =
     Ok ([b; c; d; e; m], Some (mean [b; c; d; e; m]))) /\
  (forall vs, exists avg,
     push_all [] None vs = Ok (last_n 5 vs, avg) /\
     (List.length (last_n 5 vs) <= 5)%nat) /\
  push_all [] None [1; 2; 3; 4; 5; 6]%float = Ok ([2; 3; 4; 5; 6]%float, Some 4%float) /\
  mean [2; 3; 4; 5; 6]%float = 4%float.
Proof.
  split; [|split; [|split; [|split]]].
  - intros h m H. exists (last_n 5 (h ++ [m])).
    rewrite (smooth_push h m H). auto using last_n_length.
  - intros. rewrite smooth_push by (cbn; lia). reflexivity.
  - intros vs. destruct (push_all_window vs [] None) as [avg Ha]; [cbn; lia|].
    exists avg. split; [exact Ha | apply last_n_length].
  - reflexivity.
  - reflexivity.
Qed.

(** Witness of C8: a full window takes a sixth value. *)
Lemma smoothing_window_fifo_witness :
  exists h', smooth [1; 2; 3; 4; 5]%float (Some 6%float) = Ok (h', Some (mean h')) /\
             h' = last_n 5 ([1; 2; 3; 4; 5] ++ [6])%float /\ (List.length h' <= 5)%nat.
Proof.
  apply (proj1 smoothing_window_fifo [1; 2; 3; 4; 5]%float 6%float).
  cbn. lia.
Defined.

(** C3 (amended): the smoothed value is absent exactly in the cycles whose
    own reading is absent, and the window is then left as it was; in a cycle
    with a reading it is the mean of the window after the push. *)
Theorem smoothed_absent_iff_reading_absent :
  (forall h, smooth h None = Ok (h, None)) /\
  (forall h m, (List.length h <= 5)%nat ->
     smooth h (Some m) =
     Ok (last_n 5 (h ++ [m]), Some (mean (last_n 5 (h ++ [m]))))) /\
  (forall h methane h' avg, (List.length h <= 5)%nat ->
     smooth h methane = Ok (h', avg) ->
     (avg = None <-> methane = None)).
Proof.
  split; [reflexivity|]. split; [exact smooth_push|].
  intros h [m|] h' avg H E.
  - rewrite (smooth_push h m H) in E. injection E as <- <-.
    split; discriminate.
  - cbn in E. injection E as <- <-. split; reflexivity.
Qed.

(** Witness of C3: a reading on a one-element window. *)
Lemma smoothed_absent_iff_reading_absent_witness :
  smooth [12]%float (Some 10%float) =
  Ok (last_n 5 ([12] ++ [10])%float, Some (mean (last_n 5 ([12] ++ [10])%float))).
Proof.
  apply (proj1 (proj2 smoothed_absent_iff_reading_absent) [12]%float 10%float).
  cbn. lia.
Defined.

(** C3 (as stated) fails: after a first reading of 12.0 the window holds it,
    and a cycle without a reading has no smoothed value. *)
Lemma smoothed_absent_with_nonempty_window :
  smooth [] (Some 12%float) = Ok ([12%float], Some 12%float) /\
  smooth [12%float] None = Ok ([12%float], None).
Proof. split; reflexivity. Qed.

(** ** ShelfLifeClassifier *)

Module Thresholds.

Local Open Scope float_scope.

Lemma SFltb_step (x : spec_float) (m1 m2 : positive) (e : Z) :
  (m1 <= m2)%positive ->
  SFltb x (S754_finite false m1 e) = true ->
  SFltb x (S754_finite false m2 e) = true.
Proof.
  intros Hm. unfold SFltb, SFcompare.
  destruct x as [s | s | | s m ex];
    [destruct s; congruence | destruct s; congruence | congruence |].
  destruct s; [congruence|].
  destruct (Z.compare ex e); try congruence.
  change (Pos.compare_cont Eq m m1) with (Pos.compare m m1).
  change (Pos.compare_cont Eq m m2) with (Pos.compare m m2).
  destruct (Pos.compare_spec m m1); try congruence.
  destruct (Pos.compare_spec m m2); try congruence; lia.
Qed.

Lemma below_8_below_10 (v : float) : (v <? 8) = true -> (v <? 10) = true.
Proof.
  rewrite !ltb_spec.
  change (Prim2SF 8) with (S754_finite false 4503599627370496 (-49)).
  change (Prim2SF 10) with (S754_finite false 5629499534213120 (-49)).
  apply SFltb_step. lia.
Qed.

Lemma below_10_below_12 (v : float) : (v <? 10) = true -> (v <? 12) = true.
Proof.
  rewrite !ltb_spec.
  change (Prim2SF 10) with (S754_finite false 5629499534213120 (-49)).
  change (Prim2SF 12) with (S754_finite false 6755399441055744 (-49)).
  apply SFltb_step. lia.
Qed.

Lemma classify_unfold (v : float) :
  classify (Some v) =
  if v <? 8 then "5-7 Days"%string
  else if v <? 10 then "3-5 Days"%string
  else if v <? 12 then "1-3 Days"%string
  else "0 Days"%string.
Proof. reflexivity. Qed.

End Thresholds.
Import Thresholds.

(** C4: the bucket depends on the smoothed value alone, with strict [<]
    thresholds at 8, 10 and 12; an absent value is "Unknown". *)
Theorem classify_thresholds :
  classify None = "Unknown"%string /\
  (forall v, (v <? 8)%float = true -> classify (Some v) = "5-7 Days"%string) /\
  (forall v, (8 <=? v)%float = true -> (v <? 10)%float = true ->
             classify (Some v) = "3-5 Days"%string) /\
  (forall v, (10 <=? v)%float = true -> (v <? 12)%float = true ->
             classify (Some v) = "1-3 Days"%string) /\
  (forall v, (12 <=? v)%float = true -> classify (Some v) = "0 Days"%string) /\
  classify (Some 7.99%float) = "5-7 Days"%string /\
  classify (Some 8.0%float) = "3-5 Days"%string /\
  classify (Some 11.999%float) = "1-3 Days"%string /\
  classify (Some 12.0%float) = "0 Days"%string.
Proof.
  split; [reflexivity|].
  split; [intros v H; rewrite classify_unfold, H; reflexivity|].
  split.
  { intros v H8 H10. rewrite classify_unfold, (leb_not_ltb _ _ H8), H10.
    reflexivity. }
  split.
  { intros v H10 H12. rewrite classify_unfold.
    pose proof (leb_not_ltb _ _ H10) as N10.
    destruct (v <? 8)%float eqn:E8.
    - apply below_8_below_10 in E8. congruence.
    - rewrite N10, H12. reflexivity. }
  split.
  { intros v H12. rewrite classify_unfold.
    pose proof (leb_not_ltb _ _ H12) as N12.
    destruct (v <? 8)%float eqn:E8.
    - apply below_8_below_10, below_10_below_12 in E8. congruence.
    - destruct (v <? 10)%float eqn:E10.
      + apply below_10_below_12 in E10. congruence.
      + rewrite N12. reflexivity. }
  repeat split.
Qed.

(** Witness of C4: 9.0 lies in the second bucket. *)
Lemma classify_thresholds_witness : classify (Some 9%float) = "3-5 Days"%string.
Proof.
  apply (proj1 (proj2 (proj2 classify_thresholds)) 9%float); reflexivity.
Defined.

(** ** The main loop *)

(** A cycle whose methane reading is absent raises. *)
Lemma cycle_absent_methane_raises (libm_pow : float -> float -> float)
    (st : Monitor) (dht : result (Z * Z)) (adc : Z) :
  snd (fst (read_all libm_pow (sensors st) dht adc)) = None ->
  exists e, cycle libm_pow st dht adc = Raise e.
Proof.
  unfold cycle.
  destruct (read_all libm_pow (sensors st) dht adc) as [[[temp humid] methane] out].
  cbn [fst snd]. intros ->.
  destruct (opt_result float_of_int temp) as [tv|e]; [|exists e; reflexivity].
  cbn [bind].
  destruct (opt_result (fun h => f <- float_of_int h;; int_of_float f) humid)
    as [hv|e]; [|exists e; reflexivity].
  exists TypeError. reflexivity.
Qed.

(** C2 (the code fails it): after the start-up calibration on mid-scale
    samples, a cycle in which the ADC reads full scale (65535) has no
    methane value, and the status print raises TypeError out of the loop;
    so does the run of a good cycle followed by that one.  A failed DHT
    read, in contrast, is shown as "N/A" and the cycle completes. *)
Theorem saturated_sample_ends_the_loop (libm_pow : float -> float -> float) :
  (st <- main_start (fun _ => 32768) ;;
   Ok (read_all libm_pow (sensors st) (Ok (25, 80)) 65535))
  = Ok (Some 25, Some 80, None, []) /\
  (st <- main_start (fun _ => 32768) ;;
   cycle libm_pow st (Ok (25, 80)) 65535) = Raise TypeError /\
  (st <- main_start (fun _ => 32768) ;;
   run libm_pow st [(Ok (25, 80), 0); (Ok (25, 80), 65535)]) = Raise TypeError /\
  (st <- main_start (fun _ => 32768) ;;
   r <- cycle libm_pow st (Raise (OSError "timeout")) 0 ;;
   Ok (snd r))
  = Ok [Lcd_clear;
        Lcd_move_to 0 0; Lcd_putstr "Temp: N/A       ";
        Lcd_move_to 0 1; Lcd_putstr "Humidity: N/A   "].
Proof. vm_compute. repeat split. Qed.

(** * Further properties of the program *)

(** ** More order facts on binary64 values *)

Module FloatFacts.

Local Open Scope float_scope.

Ltac sf_cases :=
  repeat match goal with
  | |- context [Z.compare ?a ?b] => destruct (Z.compare_spec a b); subst
  | |- context [Pos.compare ?a ?b] => destruct (Pos.compare_spec a b); subst
  end; cbn [CompOpp]; try congruence; try lia.

Lemma SFleb_trans (a b c : spec_float) :
  SFleb a b = true -> SFleb b c = true -> SFleb a c = true.
Proof.
  unfold SFleb, SFcompare.
  destruct a as [sa|sa| |sa ma ea], b as [sb|sb| |sb mb eb],
           c as [sc|sc| |sc mc ec];
    try destruct sa; try destruct sb; try destruct sc; try congruence;
    change (Pos.compare_cont Eq ?x ?y) with (Pos.compare x y);
    sf_cases.
Qed.

Lemma SFleb_ltb_trans (a b c : spec_float) :
  SFleb a b = true -> SFltb b c = true -> SFltb a c = true.
Proof.
  unfold SFleb, SFltb, SFcompare.
  destruct a as [sa|sa| |sa ma ea], b as [sb|sb| |sb mb eb],
           c as [sc|sc| |sc mc ec];
    try destruct sa; try destruct sb; try destruct sc; try congruence;
    change (Pos.compare_cont Eq ?x ?y) with (Pos.compare x y);
    sf_cases.
Qed.

Lemma leb_trans (a b c : float) :
  (a <=? b) = true -> (b <=? c) = true -> (a <=? c) = true.
Proof. rewrite !leb_spec. apply SFleb_trans. Qed.

Lemma leb_ltb_trans (a b c : float) :
  (a <=? b) = true -> (b <? c) = true -> (a <? c) = true.
Proof. rewrite leb_spec, !ltb_spec. apply SFleb_ltb_trans. Qed.

(** A value below another one is a number, and is not the zero it is
    below. *)
Lemma ltb_0_facts (x : float) :
  (x <? 0) = true -> is_nan x = false /\ (x =? 0) = false.
Proof.
  unfold is_nan. rewrite ltb_spec, !eqb_spec, Prim2SF_0.
  unfold SFltb, SFeqb, SFcompare.
  destruct (Prim2SF x) as [s|s| |s m e]; try destruct s; try congruence;
    intros _; split; try reflexivity.
  all: rewrite Z.compare_refl;
       change (Pos.compare_cont Eq m m) with (Pos.compare m m);
       rewrite Pos.compare_refl; reflexivity.
Qed.

End FloatFacts.
Import FloatFacts.

(** ** The 16-bit samples on the default suite, one by one *)

Lemma zrange_In (n : nat) :
  forall start r, start <= r < start + Z.of_nat n -> In r (zrange start n).
Proof.
  induction n as [|n IH]; intros start r H; [lia|].
  cbn [zrange]. destruct (Z.eq_dec start r) as [->|Hne]; [left; reflexivity|].
  right. apply IH. lia.
Qed.

Lemma u16_all_spec (f : Z -> bool) :
  u16_all f = true -> forall r, 0 <= r <= 65535 -> f r = true.
Proof.
  unfold u16_all. intros H r Hr. rewrite forallb_forall in H. apply H.
  apply zrange_In. lia.
Qed.

Lemma u16_check_all : u16_all u16_check = true.
Proof. vm_compute. reflexivity. Qed.
Module SampleFacts.

Local Open Scope float_scope.

Lemma leb_refl_of_leb (a v : float) : (a <=? v) = true -> (v <=? v) = true.
Proof.
  rewrite !leb_spec. unfold SFleb, SFcompare.
  destruct (Prim2SF a) as [sa|sa| |sa ma ea], (Prim2SF v) as [s|s| |s m e];
    try destruct sa; try destruct s; try congruence; intros _;
    rewrite Z.compare_refl;
    change (Pos.compare_cont Eq m m) with (Pos.compare m m);
    rewrite Pos.compare_refl; reflexivity.
Qed.

(** The facts [u16_check] records, for one sample. *)
Lemma u16_check_facts (r : Z) :
  (0 <= r <= 65535)%Z ->
  exists v v' rs rs',
    voltage_from_raw default_suite r = Ok v /\
    voltage_from_raw default_suite (r + 1) = Ok v' /\
    get_rs default_suite r None = Ok rs /\
    get_rs default_suite (r + 1) None = Ok rs' /\
    (0 <=? v) = true /\ (v <=? mq4_vref default_suite) = true /\
    ((r < 65535)%Z -> (v <=? v') = true) /\
    (0 <=? rs) = true /\ ((r < 65535)%Z -> (rs' <=? rs) = true) /\
    is_infinity rs = (r =? 0)%Z /\ (rs =? 0) = (r =? 65535)%Z /\
    (f <- float_of_int r ;; int_of_float f) = Ok r.
Proof.
  intros H. pose proof (u16_all_spec _ u16_check_all r H) as C.
  unfold u16_check in C.
  destruct (voltage_from_raw default_suite r) as [v|]; [|discriminate].
  destruct (voltage_from_raw default_suite (r + 1)) as [v'|]; [|discriminate].
  destruct (get_rs default_suite r None) as [rs|]; [|discriminate].
  destruct (get_rs default_suite (r + 1) None) as [rs'|]; [|discriminate].
  exists v, v', rs, rs'.
  repeat (apply andb_prop in C; destruct C as [C ?]).
  repeat split; try assumption.
  - intros Hlt. destruct (Z.eqb_spec r 65535); [lia|]. assumption.
  - intros Hlt. destruct (Z.eqb_spec r 65535); [lia|]. assumption.
  - apply Bool.eqb_prop. assumption.
  - apply Bool.eqb_prop. assumption.
  - destruct (f <- float_of_int r;; int_of_float f) as [z|]; [|discriminate].
    f_equal. apply Z.eqb_eq. assumption.
Qed.

Lemma voltage_steps (n : nat) :
  forall r, (0 <= r)%Z -> (r + Z.of_nat n <= 65535)%Z ->
  exists v1 v2,
    voltage_from_raw default_suite r = Ok v1 /\
    voltage_from_raw default_suite (r + Z.of_nat n) = Ok v2 /\
    (v1 <=? v2) = true.
Proof.
  induction n as [|n IH]; intros r H0 H1.
  - destruct (u16_check_facts r) as (a_v & a_v2 & a_rs & a_rs2 & a_Ev & a_Ev2 & a_Ers & a_Ers2 & a_Hv0 & a_Hvmax & a_Hvstep & a_Hr0 & a_Hrstep & a_Hinf & a_Hzero & a_Hround); [lia|].
    exists a_v, a_v. rewrite Z.add_0_r.
    repeat split; try assumption. exact (leb_refl_of_leb _ _ a_Hv0).
  - destruct (IH r H0) as (v1 & v2 & E1 & E2 & L); [lia|].
    destruct (u16_check_facts (r + Z.of_nat n))
      as (a_v & a_v2 & a_rs & a_rs2 & a_Ev & a_Ev2 & a_Ers & a_Ers2 & a_Hv0 & a_Hvmax & a_Hvstep & a_Hr0 & a_Hrstep & a_Hinf & a_Hzero & a_Hround); [lia|].
    rewrite E2 in a_Ev. injection a_Ev as <-.
    exists v1, a_v2.
    replace (r + Z.of_nat (S n))%Z with (r + Z.of_nat n + 1)%Z by lia.
    repeat split; try assumption.
    apply (leb_trans v1 v2 a_v2 L). apply a_Hvstep. lia.
Qed.

Lemma resistance_steps (n : nat) :
  forall r, (0 <= r)%Z -> (r + Z.of_nat n <= 65535)%Z ->
  exists rs1 rs2,
    get_rs default_suite r None = Ok rs1 /\
    get_rs default_suite (r + Z.of_nat n) None = Ok rs2 /\
    (rs2 <=? rs1) = true.
Proof.
  induction n as [|n IH]; intros r H0 H1.
  - destruct (u16_check_facts r)
      as (a_v & a_v2 & a_rs & a_rs2 & a_Ev & a_Ev2 & a_Ers & a_Ers2 & a_Hv0 & a_Hvmax & a_Hvstep & a_Hr0 & a_Hrstep & a_Hinf & a_Hzero & a_Hround); [lia|].
    exists a_rs, a_rs. rewrite Z.add_0_r.
    repeat split; try assumption. exact (leb_refl_of_leb _ _ a_Hr0).
  - destruct (IH r H0) as (a & b & E1 & E2 & L); [lia|].
    destruct (u16_check_facts (r + Z.of_nat n))
      as (c_v & c_v2 & c_rs & c_rs2 & c_Ev & c_Ev2 & c_Ers & c_Ers2 & c_Hv0 & c_Hvmax & c_Hvstep & c_Hr0 & c_Hrstep & c_Hinf & c_Hzero & c_Hround); [lia|].
    rewrite E2 in c_Ers. injection c_Ers as <-.
    exists a, c_rs2.
    replace (r + Z.of_nat (S n))%Z with (r + Z.of_nat n + 1)%Z by lia.
    repeat split; try assumption.
    apply (leb_trans c_rs2 b a); [|exact L]. apply c_Hrstep. lia.
Qed.

End SampleFacts.
Import SampleFacts.

(** X1: on the default suite the voltage of every 16-bit sample lies
    between 0 and the reference voltage, and a larger sample never gives a
    smaller voltage. *)
Theorem voltage_bounded_and_monotone (r1 r2 : Z) :
  0 <= r1 <= r2 -> r2 <= 65535 ->
  exists v1 v2,
    voltage_from_raw default_suite r1 = Ok v1 /\
    voltage_from_raw default_suite r2 = Ok v2 /\
    (0 <=? v1)%float = true /\
    (v2 <=? mq4_vref default_suite)%float = true /\
    (v1 <=? v2)%float = true.
Proof.
  intros H1 H2.
  destruct (voltage_steps (Z.to_nat (r2 - r1)) r1) as (v1 & v2 & E1 & E2 & L);
    [lia | lia |].
  replace (r1 + Z.of_nat (Z.to_nat (r2 - r1))) with r2 in E2 by lia.
  destruct (u16_check_facts r1) as (a_v & a_v2 & a_rs & a_rs2 & a_Ev & a_Ev2 & a_Ers & a_Ers2 & a_Hv0 & a_Hvmax & a_Hvstep & a_Hr0 & a_Hrstep & a_Hinf & a_Hzero & a_Hround); [lia|].
  destruct (u16_check_facts r2) as (b_v & b_v2 & b_rs & b_rs2 & b_Ev & b_Ev2 & b_Ers & b_Ers2 & b_Hv0 & b_Hvmax & b_Hvstep & b_Hr0 & b_Hrstep & b_Hinf & b_Hzero & b_Hround); [lia|].
  rewrite E1 in a_Ev. injection a_Ev as <-.
  rewrite E2 in b_Ev. injection b_Ev as <-.
  exists v1, v2. repeat split; assumption.
Qed.

Lemma voltage_bounded_and_monotone_witness :
  exists v1 v2,
    voltage_from_raw default_suite 100 = Ok v1 /\
    voltage_from_raw default_suite 40000 = Ok v2 /\
    (0 <=? v1)%float = true /\
    (v2 <=? mq4_vref default_suite)%float = true /\
    (v1 <=? v2)%float = true.
Proof. apply (voltage_bounded_and_monotone 100 40000); lia. Defined.

(** X2: on the default suite the resistance of a 16-bit sample is never
    negative and never grows with the sample; it is infinite exactly for
    the sample 0 and zero exactly for the sample 65535. *)
Theorem resistance_monotone_sentinels (r1 r2 : Z) :
  0 <= r1 <= r2 -> r2 <= 65535 ->
  exists rs1 rs2,
    get_rs default_suite r1 None = Ok rs1 /\
    get_rs default_suite r2 None = Ok rs2 /\
    (rs2 <=? rs1)%float = true /\
    (0 <=? rs2)%float = true /\
    (is_infinity rs1 = true <-> r1 = 0) /\
    ((rs2 =? 0)%float = true <-> r2 = 65535).
Proof.
  intros H1 H2.
  destruct (resistance_steps (Z.to_nat (r2 - r1)) r1) as (a & b & E1 & E2 & L);
    [lia | lia |].
  replace (r1 + Z.of_nat (Z.to_nat (r2 - r1))) with r2 in E2 by lia.
  destruct (u16_check_facts r1)
    as (x_v & x_v2 & x_rs & x_rs2 & x_Ev & x_Ev2 & x_Ers & x_Ers2 & x_Hv0 & x_Hvmax & x_Hvstep & x_Hr0 & x_Hrstep & x_Hinf & x_Hzero & x_Hround); [lia|].
  destruct (u16_check_facts r2)
    as (y_v & y_v2 & y_rs & y_rs2 & y_Ev & y_Ev2 & y_Ers & y_Ers2 & y_Hv0 & y_Hvmax & y_Hvstep & y_Hr0 & y_Hrstep & y_Hinf & y_Hzero & y_Hround); [lia|].
  rewrite E1 in x_Ers. injection x_Ers as <-.
  rewrite E2 in y_Ers. injection y_Ers as <-.
  exists a, b. repeat split; try assumption.
  - rewrite x_Hinf. apply Z.eqb_eq.
  - rewrite x_Hinf. apply Z.eqb_eq.
  - rewrite y_Hzero. apply Z.eqb_eq.
  - rewrite y_Hzero. apply Z.eqb_eq.
Qed.

Lemma resistance_monotone_sentinels_witness :
  exists rs1 rs2,
    get_rs default_suite 0 None = Ok rs1 /\
    get_rs default_suite 65535 None = Ok rs2 /\
    (rs2 <=? rs1)%float = true /\
    (0 <=? rs2)%float = true /\
    (is_infinity rs1 = true <-> 0 = 0) /\
    ((rs2 =? 0)%float = true <-> 65535 = 65535).
Proof. apply (resistance_monotone_sentinels 0 65535); lia. Defined.
(** ** Padding and rendering *)

Module StringFacts.

Local Open Scope string_scope.

Lemma length_app (a b : string) :
  String.length (a ++ b) = (String.length a + String.length b)%nat.
Proof. induction a as [|c a IH]; cbn; [reflexivity | rewrite IH; reflexivity]. Qed.

Lemma length_replicate_space (n : nat) : String.length (replicate n " ") = n.
Proof. induction n as [|n IH]; cbn; [reflexivity | rewrite IH; reflexivity]. Qed.

Lemma length_substring_0 (s : string) :
  forall n, (n <= String.length s)%nat -> String.length (substring 0 n s) = n.
Proof.
  induction s as [|c s IH]; intros [|n] H; cbn in *; try reflexivity; try lia.
  rewrite IH by lia. reflexivity.
Qed.

Lemma substring_0_all (s : string) : substring 0 (String.length s) s = s.
Proof. induction s as [|c s IH]; cbn; [reflexivity | rewrite IH; reflexivity]. Qed.

Lemma prefix_app (a b : string) : prefix a (a ++ b) = true.
Proof.
  induction a as [|c a IH]; cbn; [destruct b; reflexivity|].
  destruct (ascii_dec c c); [exact IH | congruence].
Qed.

Lemma prefix_substring_0 (s : string) :
  forall n, prefix (substring 0 n s) s = true.
Proof.
  induction s as [|c s IH]; intros [|n]; cbn; try reflexivity.
  destruct (ascii_dec c c); [apply IH | congruence].
Qed.

Lemma get_replicate_space (k : nat) :
  forall i, (i < k)%nat -> get i (replicate k " ") = Some " "%char.
Proof.
  induction k as [|k IH]; intros i H; [lia|].
  destruct i as [|i]; cbn; [reflexivity | apply IH; lia].
Qed.

Lemma pad_lt (text : string) (n : Z) :
  (Z.of_nat (String.length text) < n)%Z ->
  pad text n = text ++ replicate (Z.to_nat n - String.length text) " ".
Proof.
  intros H. unfold pad.
  destruct (Z.ltb_spec (Z.of_nat (String.length text)) n); [|lia].
  do 2 f_equal. lia.
Qed.

Lemma pad_ge (text : string) (n : Z) :
  (0 <= n <= Z.of_nat (String.length text))%Z ->
  pad text n = substring 0 (Z.to_nat n) text.
Proof.
  intros H. unfold pad, slice_to.
  destruct (Z.ltb_spec (Z.of_nat (String.length text)) n); [lia|].
  destruct (Z.ltb_spec n 0); [lia|].
  rewrite Z.min_l by lia. reflexivity.
Qed.

Lemma pad_neg (text : string) (n : Z) :
  (n < 0)%Z ->
  pad text n = substring 0 (String.length text - Z.to_nat (- n)) text.
Proof.
  intros H. unfold pad, slice_to.
  destruct (Z.ltb_spec (Z.of_nat (String.length text)) n); [lia|].
  destruct (Z.ltb_spec n 0); [|lia].
  f_equal. lia.
Qed.

Lemma pad_length (text : string) (n : Z) :
  (0 <= n)%Z -> String.length (pad text n) = Z.to_nat n.
Proof.
  intros H. destruct (Z.lt_ge_cases (Z.of_nat (String.length text)) n).
  - rewrite pad_lt by assumption.
    rewrite length_app, length_replicate_space. lia.
  - rewrite pad_ge by lia. apply length_substring_0. lia.
Qed.

Lemma pad_length_16 (text : string) : String.length (pad text 16) = 16%nat.
Proof. apply (pad_length text 16). lia. Qed.

Lemma pad_16_cases (text : string) :
  pad text 16 = text ++ replicate (16 - String.length text) " " \/
  pad text 16 = substring 0 16 text.
Proof.
  destruct (Z.lt_ge_cases (Z.of_nat (String.length text)) 16).
  - left. exact (pad_lt text 16 H).
  - right. apply (pad_ge text 16). lia.
Qed.

End StringFacts.
Import StringFacts.

(** X3: for a length that is not negative, [pad] returns exactly [length]
    characters: those of the text in their places, then spaces; a longer
    text is cut to its first [length] characters, and padding twice changes
    nothing.  For a negative length it returns the text without its last
    [-length] characters. *)
Theorem pad_exact_width (text : string) (length : Z) :
  (0 <= length ->
   String.length (pad text length) = Z.to_nat length /\
   (forall i, (i < Z.to_nat length)%nat ->
      get i (pad text length) =
      if (i <? String.length text)%nat then get i text else Some " "%char) /\
   pad (pad text length) length = pad text length) /\
  (length < 0 ->
   pad text length =
   substring 0 (String.length text - Z.to_nat (- length)) text).
Proof.
  split; [|apply pad_neg].
  intros H. split; [exact (pad_length text length H)|]. split.
  - intros i Hi.
    destruct (Z.lt_ge_cases (Z.of_nat (String.length text)) length) as [Hlt|Hge].
    + rewrite pad_lt by assumption.
      destruct (Nat.ltb_spec i (String.length text)) as [Hin|Hout].
      * symmetry. apply append_correct1. exact Hin.
      * replace i with (i - String.length text + String.length text)%nat by lia.
        rewrite <- append_correct2. apply get_replicate_space. lia.
    + rewrite pad_ge by lia.
      destruct (Nat.ltb_spec i (String.length text)) as [Hin|Hout]; [|lia].
      rewrite (substring_correct1 text 0 (Z.to_nat length) i Hi).
      rewrite Nat.add_0_r. reflexivity.
  - rewrite (pad_ge (pad text length) length).
    + rewrite <- (pad_length text length H). apply substring_0_all.
    + rewrite (pad_length text length H). lia.
Qed.

Lemma pad_exact_width_witness :
  String.length (pad "Temp: N/A" 16) = Z.to_nat 16 /\
  (forall i, (i < Z.to_nat 16)%nat ->
     get i (pad "Temp: N/A" 16) =
     if (i <? String.length "Temp: N/A")%nat then get i "Temp: N/A"
     else Some " "%char) /\
  pad (pad "Temp: N/A" 16) 16 = pad "Temp: N/A" 16.
Proof. apply (proj1 (pad_exact_width "Temp: N/A" 16)). lia. Defined.

(** X4: every render is a clear followed by the two rows in order, each
    written from column 0 with exactly 16 characters, whatever the values;
    [update] produces one of the two screens. *)
Theorem render_two_full_rows (temperature humidity methane : option num)
    (shelf_life : option string) :
  (exists a b,
     display_screen_1 temperature humidity =
     [Lcd_clear; Lcd_move_to 0 0; Lcd_putstr a; Lcd_move_to 0 1; Lcd_putstr b] /\
     String.length a = 16%nat /\ String.length b = 16%nat) /\
  (exists a b,
     display_screen_2 methane shelf_life =
     [Lcd_clear; Lcd_move_to 0 0; Lcd_putstr a; Lcd_move_to 0 1; Lcd_putstr b] /\
     String.length a = 16%nat /\ String.length b = 16%nat) /\
  (forall self,
     snd (update self temperature humidity methane shelf_life) =
     if current_screen self =? 0
     then display_screen_1 temperature humidity
     else display_screen_2 methane shelf_life).
Proof.
  split; [|split].
  - eexists. eexists. split; [reflexivity|]. split; apply pad_length_16.
  - eexists. eexists. split; [reflexivity|]. split; apply pad_length_16.
  - intros self. unfold update. destruct (current_screen self =? 0); reflexivity.
Qed.

(** X5: the placeholders of the two screens: an absent temperature or
    humidity, an int too large for a float, and a humidity that is not a
    finite number are written as "N/A" on their own row without affecting
    the other row's text; an absent shelf life is "Shelf Life: N/A". *)
Theorem screen_placeholders :
  (forall humidity,
     line_at 0 (display_screen_1 None humidity) = Some "Temp: N/A       "%string) /\
  (forall temperature,
     line_at 1 (display_screen_1 temperature None) = Some "Humidity: N/A   "%string) /\
  (forall methane,
     line_at 1 (display_screen_2 methane None) = Some "Shelf Life: N/A "%string) /\
  (forall z humidity, int_max_float <= Z.abs z ->
     line_at 0 (display_screen_1 (Some (Int z)) humidity)
     = Some "Temp: N/A       "%string) /\
  (forall temperature,
     line_at 1 (display_screen_1 temperature (Some (Flt nan)))
     = Some "Humidity: N/A   "%string /\
     line_at 1 (display_screen_1 temperature (Some (Flt infinity)))
     = Some "Humidity: N/A   "%string) /\
  (forall z methane, int_max_float <= Z.abs z ->
     line_at 0 (display_screen_2 (Some (Int z)) methane)
     = Some "Methane: N/A    "%string).
Proof.
  repeat split.
  - intros z h H. cbn [display_screen_1 line_at]. unfold float_of_num, float_of_int.
    destruct (Z.ltb_spec (Z.abs z) int_max_float); [lia|]. reflexivity.
  - intros z m H. unfold display_screen_2, float_of_num, float_of_int.
    destruct (Z.ltb_spec (Z.abs z) int_max_float); [lia|]. reflexivity.
Qed.

Lemma screen_placeholders_witness :
  line_at 0 (display_screen_1 (Some (Int (2 ^ 1024))) None)
  = Some "Temp: N/A       "%string.
Proof.
  apply (proj1 (proj2 (proj2 (proj2 screen_placeholders))) (2 ^ 1024) None).
  vm_compute. discriminate.
Defined.

(** X6: a DHT reading within 16 bits is shown as it is: the humidity row
    carries the integer itself (the conversion to float and back loses
    nothing), the temperature row its value with one decimal. *)
Theorem screen_a_shows_readings (t h : Z) :
  0 <= t <= 65535 -> 0 <= h <= 65535 ->
  display_screen_1 (Some (Int t)) (Some (Int h)) =
  [Lcd_clear;
   Lcd_move_to 0 0; Lcd_putstr (pad ("Temp: " ++ format_f 1 (Z2float t) ++ "C") 16);
   Lcd_move_to 0 1; Lcd_putstr (pad ("Humidity: " ++ str_of_Z h ++ "%") 16)] /\
  (f <- float_of_int h ;; int_of_float f) = Ok h.
Proof.
  intros Ht Hh.
  destruct (u16_check_facts h Hh)
    as (_ & _ & _ & _ & _ & _ & _ & _ & _ & _ & _ & _ & _ & _ & _ & Hround).
  split; [|exact Hround].
  unfold display_screen_1, float_of_num.
  rewrite Hround, (float_of_int_u16 t Ht). reflexivity.
Qed.

Lemma screen_a_shows_readings_witness :
  display_screen_1 (Some (Int 25)) (Some (Int 80)) =
  [Lcd_clear;
   Lcd_move_to 0 0; Lcd_putstr (pad ("Temp: " ++ format_f 1 (Z2float 25) ++ "C") 16);
   Lcd_move_to 0 1; Lcd_putstr (pad ("Humidity: " ++ str_of_Z 80 ++ "%") 16)] /\
  (f <- float_of_int 80 ;; int_of_float f) = Ok 80.
Proof. apply (screen_a_shows_readings 25 80); lia. Defined.

Lemma update_bool (b : bool) (t h m : option num) (s : option string) :
  update (mkDisplay (if b then 1 else 0)) t h m s =
  (mkDisplay (if negb b then 1 else 0),
   if b then display_screen_2 m s else display_screen_1 t h).
Proof. destruct b; reflexivity. Qed.

Lemma updates_from (args : list (option num * option num * option num * option string)) :
  forall b : bool,
    let r := updates (mkDisplay (if b then 1 else 0)) args in
    current_screen (fst r) = (if xorb b (Nat.odd (List.length args)) then 1 else 0) /\
    List.length (snd r) = List.length args /\
    forall k t h m s,
      nth_error args k = Some (t, h, m, s) ->
      nth_error (snd r) k =
      Some (if xorb b (Nat.odd k) then display_screen_2 m s else display_screen_1 t h).
Proof.
  induction args as [|[[[t0 h0] m0] s0] args IH]; intros b.
  - cbn. destruct b; repeat split; intros [|k]; discriminate.
  - cbn [updates]. rewrite !(update_bool b).
    specialize (IH (negb b)).
    destruct (updates (mkDisplay (if negb b then 1 else 0)) args) as [d frames].
    cbv beta iota zeta in *. cbn [fst snd] in *. destruct IH as (Hd & Hl & Hk).
    split; [|split].
    + rewrite Hd. cbn [List.length]. rewrite Nat.odd_succ, <- Nat.negb_odd.
      destruct b, (Nat.odd (List.length args)); reflexivity.
    + cbn [List.length]. rewrite Hl. reflexivity.
    + intros [|k] t h m s E.
      * cbn [nth_error] in *. injection E as <- <- <- <-. destruct b; reflexivity.
      * cbn [nth_error] in *. rewrite (Hk k t h m s E).
        rewrite Nat.odd_succ, <- Nat.negb_odd.
        destruct b, (Nat.odd k); reflexivity.
Qed.

(** X7: [update] shows the first screen exactly when the index is 0 and
    then flips the index between 0 and 1; from the initial controller the
    calls render screen 1, screen 2, screen 1, ... in turn, one render per
    call. *)
Theorem update_alternates :
  (forall self t h m s,
     current_screen (fst (update self t h m s)) =
     if current_screen self =? 0 then 1 else 0) /\
  (forall args,
     let r := updates (mkDisplay 0) args in
     current_screen (fst r) = (if Nat.odd (List.length args) then 1 else 0) /\
     List.length (snd r) = List.length args /\
     forall k t h m s,
       nth_error args k = Some (t, h, m, s) ->
       nth_error (snd r) k =
       Some (if Nat.odd k then display_screen_2 m s else display_screen_1 t h)).
Proof.
  split.
  - intros self t h m s. unfold update.
    destruct (current_screen self =? 0); reflexivity.
  - intros args. exact (updates_from args false).
Qed.

Lemma update_alternates_witness :
  nth_error
    (snd (updates (mkDisplay 0)
            [(None, None, None, None); (None, None, None, Some "0 Days"%string)])) 1
  = Some (display_screen_2 None (Some "0 Days"%string)).
Proof.
  apply (proj2 (proj2 (proj2 update_alternates
           [(None, None, None, None); (None, None, None, Some "0 Days"%string)]))
           1%nat None None None (Some "0 Days"%string)).
  reflexivity.
Defined.
(** ** Classifier and estimator *)

(** X8: the shelf life is always one of the five labels, and it is
    "Unknown" exactly when the smoothed value is absent. *)
Theorem classify_closed_set (methane_avg : option float) :
  In (classify methane_avg)
     ["Unknown"; "5-7 Days"; "3-5 Days"; "1-3 Days"; "0 Days"]%string /\
  (classify methane_avg = "Unknown"%string <-> methane_avg = None).
Proof.
  destruct methane_avg as [v|].
  - rewrite classify_unfold.
    destruct (v <? 8)%float, (v <? 10)%float, (v <? 12)%float;
      (split; [cbn; tauto | split; discriminate]).
  - split; [left; reflexivity | split; reflexivity].
Qed.

(** X9: the classifier is monotone: a larger smoothed value never gets a
    fresher label. *)
Theorem classify_monotone (v w : float) :
  (v <=? w)%float = true ->
  (bucket_rank (classify (Some v)) <= bucket_rank (classify (Some w)))%nat.
Proof.
  intros H. rewrite !classify_unfold.
  pose proof (leb_ltb_trans v w 8 H) as H8.
  pose proof (leb_ltb_trans v w 10 H) as H10.
  pose proof (leb_ltb_trans v w 12 H) as H12.
  destruct (w <? 8)%float; [rewrite H8 by reflexivity; cbn; lia|].
  destruct (w <? 10)%float;
    [rewrite H10 by reflexivity; destruct (v <? 8)%float; cbn; lia|].
  destruct (w <? 12)%float;
    [rewrite H12 by reflexivity;
     destruct (v <? 8)%float, (v <? 10)%float; cbn; lia|].
  destruct (v <? 8)%float, (v <? 10)%float, (v <? 12)%float; cbn; lia.
Qed.

Lemma classify_monotone_witness :
  (bucket_rank (classify (Some 9.5%float))
   <= bucket_rank (classify (Some 11.0%float)))%nat.
Proof. apply (classify_monotone 9.5%float 11.0%float). reflexivity. Defined.

(** X10: an estimate is never below zero, whatever the curve constants and
    the platform's [pow] return. *)
Theorem estimate_never_negative (libm_pow : float -> float -> float)
    (ratio a b p : float) :
  estimate_methane_ppm libm_pow ratio a b = Some p -> (p <? 0)%float = false.
Proof.
  unfold estimate_methane_ppm.
  destruct (float_pow libm_pow ratio b) as [f| |e]; try discriminate.
  intros E. injection E as <-. unfold max_0, gtb.
  destruct (a * f <? 0)%float eqn:En; [reflexivity | exact En].
Qed.

Lemma estimate_never_negative_witness :
  (12 <? 0)%float = false.
Proof.
  apply (estimate_never_negative (fun _ _ => nan) 1 12 (-0.5) 12).
  reflexivity.
Defined.

(** X11: with the default curve a negative finite ratio has no estimate:
    the power is complex and [max] rejects it. *)
Theorem negative_ratio_is_dropped (libm_pow : float -> float -> float)
    (ratio : float) :
  (ratio <? 0)%float = true -> is_infinity ratio = false ->
  float_pow libm_pow ratio (-0.5) = PowComplex /\
  estimate_methane_ppm_default libm_pow ratio = None.
Proof.
  intros Hlt Hinf. destruct (ltb_0_facts ratio Hlt) as [Hnan Hz].
  assert (E : float_pow libm_pow ratio (-0.5) = PowComplex).
  { unfold float_pow.
    change (-0.5 =? 0)%float with false.
    change (is_nan (-0.5)) with false.
    change (is_infinity (-0.5)) with false.
    change (is_integer (-0.5)) with false.
    rewrite Hnan, Hinf, Hz, Hlt. reflexivity. }
  split; [exact E|].
  unfold estimate_methane_ppm_default, estimate_methane_ppm. rewrite E.
  reflexivity.
Qed.

Lemma negative_ratio_is_dropped_witness :
  estimate_methane_ppm_default (fun _ _ => nan) (-4) = None.
Proof.
  apply (negative_ratio_is_dropped (fun _ _ => nan) (-4)%float); reflexivity.
Defined.

(** ** Calibration and the sensor reads *)

(** X12: a calibration pass of zero samples raises ZeroDivisionError, for
    every suite and whatever the ADC holds; no baseline is set. *)
Theorem calibrate_zero_samples (self : SensorSuite) (adc : nat -> Z) :
  calibrate_mq4_ro self adc 0 = Raise ZeroDivisionError.
Proof. reflexivity. Qed.

Lemma calibrate_loop_frame (self : SensorSuite) (x : option float)
    (adc : nat -> Z) (n : nat) :
  forall i total,
    calibrate_loop (set_mq4_ro self x) adc i n total =
    calibrate_loop self adc i n total.
Proof.
  induction n as [|n IH]; intros i total; [reflexivity|].
  cbn [calibrate_loop].
  change (voltage_from_raw (set_mq4_ro self x)) with (voltage_from_raw self).
  destruct (voltage_from_raw self (read_mq4_raw (adc i))) as [v|]; [|reflexivity].
  cbn [bind].
  change (get_rs (set_mq4_ro self x) (adc i) (Some v))
    with (get_rs self (adc i) (Some v)).
  destruct (get_rs self (adc i) (Some v)) as [rs|]; [|reflexivity].
  cbn [bind]. destruct (add_num total rs) as [t|]; [|reflexivity].
  cbn [bind]. apply IH.
Qed.

(** X13: a calibration does not depend on the baseline the suite already
    has: on the same samples a recalibration returns the same baseline and
    leaves the same suite as a first calibration. *)
Theorem recalibration_ignores_baseline (self : SensorSuite) (x : option float)
    (adc : nat -> Z) (samples : Z) :
  calibrate_mq4_ro (set_mq4_ro self x) adc samples =
  calibrate_mq4_ro self adc samples.
Proof.
  unfold calibrate_mq4_ro. rewrite calibrate_loop_frame. reflexivity.
Qed.

Lemma main_start_u16 (adc : nat -> Z) :
  (forall i, 0 <= adc i <= 65535) ->
  let rs := map (fun k => resistance default_suite (adc k)) (seq 0 50) in
  let ro := (py_sum rs / 50 / 4)%float in
  main_start adc =
  Ok (mkMonitor (set_mq4_ro default_suite (Some ro)) (mkDisplay 0) []).
Proof.
  intros H rs ro. unfold main_start, calibrate_mq4_ro.
  rewrite calibrate_loop_sum. change (Z.to_nat 50) with 50%nat.
  rewrite (readings_u16 default_suite adc 50 H 0). cbn [bind].
  rewrite py_sum_num_seq_50. cbn [num_truediv_int].
  rewrite truediv_num_50. cbn [bind].
  change (mq4_ro_factor default_suite) with (Flt 4).
  rewrite truediv_num_4. reflexivity.
Qed.

(** X14: the start-up of the main loop never fails on 16-bit samples: it
    leaves a calibrated default suite, the display on its first screen and
    an empty history; from then on no 16-bit sample makes the ratio read
    raise, so [read_all] prints no MQ-4 error. *)
Theorem main_start_calibrates (libm_pow : float -> float -> float)
    (adc : nat -> Z) :
  (forall i, 0 <= adc i <= 65535) ->
  exists ro,
    main_start adc =
    Ok (mkMonitor (set_mq4_ro default_suite (Some ro)) (mkDisplay 0) []) /\
    forall t h sample, 0 <= sample <= 65535 ->
      (exists ratio,
         read_mq4_ratio (set_mq4_ro default_suite (Some ro)) sample = Ok ratio) /\
      snd (read_all libm_pow (set_mq4_ro default_suite (Some ro))
             (Ok (t, h)) sample) = [].
Proof.
  intros H.
  set (ro := (py_sum (map (fun k => resistance default_suite (adc k)) (seq 0 50))
              / 50 / 4)%float).
  exists ro. split; [exact (main_start_u16 adc H)|].
  intros t h sample Hs.
  pose proof (read_mq4_ratio_u16 (set_mq4_ro default_suite (Some ro)) ro sample
                eq_refl Hs) as E.
  split; [eexists; exact E|].
  unfold read_all. rewrite E. reflexivity.
Qed.

Lemma main_start_calibrates_witness :
  exists ro,
    main_start (fun _ => 32768) =
    Ok (mkMonitor (set_mq4_ro default_suite (Some ro)) (mkDisplay 0) []) /\
    forall t h sample, 0 <= sample <= 65535 ->
      (exists ratio,
         read_mq4_ratio (set_mq4_ro default_suite (Some ro)) sample = Ok ratio) /\
      snd (read_all (fun _ _ => nan) (set_mq4_ro default_suite (Some ro))
             (Ok (t, h)) sample) = [].
Proof.
  apply (main_start_calibrates (fun _ _ => nan) (fun _ => 32768)).
  intros _. lia.
Defined.

(** X15: with a baseline of zero (either sign) every 16-bit sample reads
    as the ratio +infinity, the estimate is 0.0 and its label the freshest
    one; fifty full-scale samples calibrate the default suite to that
    baseline. *)
Theorem zero_baseline_reads_zero (libm_pow : float -> float -> float)
    (self : SensorSuite) (ro : float) (dht : result (Z * Z)) (adc : Z) :
  mq4_ro self = Some ro -> (ro =? 0)%float = true -> 0 <= adc <= 65535 ->
  read_mq4_ratio self adc = Ok infinity /\
  snd (fst (read_all libm_pow self dht adc)) = Some 0%float /\
  classify (Some 0%float) = "5-7 Days"%string /\
  calibrate_mq4_ro default_suite (fun _ => 65535) 50
  = Ok (0%float, set_mq4_ro default_suite (Some 0%float)).
Proof.
  intros Hro Hz Hadc.
  assert (E : read_mq4_ratio self adc = Ok infinity).
  { rewrite (read_mq4_ratio_u16 self ro adc Hro Hadc), Hz. reflexivity. }
  split; [exact E|]. split; [|split; [reflexivity | vm_compute; reflexivity]].
  unfold read_all. destruct (read_dht dht) as [[t h] out]. rewrite E.
  reflexivity.
Qed.

Lemma zero_baseline_reads_zero_witness :
  read_mq4_ratio (set_mq4_ro default_suite (Some (-0)%float)) 1234 = Ok infinity.
Proof.
  apply (zero_baseline_reads_zero (fun _ _ => nan)
           (set_mq4_ro default_suite (Some (-0)%float)) (-0)%float
           (Ok (25, 80)) 1234); [reflexivity | reflexivity | lia].
Defined.

(** X16: [read_all] never fails.  A failed DHT read gives no temperature
    and no humidity and one printed line, a good one gives both values; in
    either case the methane value is the same. *)
Theorem read_all_dht_independent (libm_pow : float -> float -> float)
    (self : SensorSuite) (adc : Z) :
  (forall e, exists methane out,
     read_all libm_pow self (Raise e) adc =
     (None, None, methane, ("DHT11 read error: " ++ exn_str e)%string :: out)) /\
  (forall t h, exists methane out,
     read_all libm_pow self (Ok (t, h)) adc = (Some t, Some h, methane, out)) /\
  (forall dht dht',
     snd (fst (read_all libm_pow self dht adc)) =
     snd (fst (read_all libm_pow self dht' adc))).
Proof.
  split; [|split].
  - intros e. unfold read_all. cbn [read_dht].
    destruct (read_mq4_ratio self adc); eexists; eexists; reflexivity.
  - intros t h. unfold read_all. cbn [read_dht].
    destruct (read_mq4_ratio self adc); eexists; eexists; reflexivity.
  - intros dht dht'. unfold read_all.
    destruct (read_dht dht) as [[t h] out], (read_dht dht') as [[t' h'] out'].
    destruct (read_mq4_ratio self adc); reflexivity.
Qed.
(** ** The main loop *)

Module LoopFacts.

Lemma opt_float_16bit (dht : result (Z * Z)) :
  dht_16bit dht ->
  opt_result float_of_int (fst (fst (read_dht dht)))
  = Ok (option_map Z2float (fst (fst (read_dht dht)))) /\
  opt_result (fun h => f <- float_of_int h ;; int_of_float f)
             (snd (fst (read_dht dht)))
  = Ok (snd (fst (read_dht dht))).
Proof.
  destruct dht as [[t h]|e]; cbn [dht_16bit read_dht fst snd opt_result option_map].
  - intros [Ht Hh]. rewrite (float_of_int_u16 t Ht).
    destruct (u16_check_facts h Hh)
      as (_ & _ & _ & _ & _ & _ & _ & _ & _ & _ & _ & _ & _ & _ & _ & Hround).
    rewrite Hround. split; reflexivity.
  - intros _. split; reflexivity.
Qed.

Lemma read_all_parts (libm_pow : float -> float -> float) (self : SensorSuite)
    (dht : result (Z * Z)) (adc : Z) :
  exists out,
    read_all libm_pow self dht adc =
    (fst (fst (read_dht dht)), snd (fst (read_dht dht)),
     methane_of libm_pow self (dht, adc), out).
Proof.
  unfold methane_of, read_all. cbn [fst snd].
  destruct (read_dht dht) as [[t h] out].
  destruct (read_mq4_ratio self adc); eexists; reflexivity.
Qed.

(** What a cycle that completes has done. *)
Lemma cycle_ok_inv (libm_pow : float -> float -> float) (st st' : Monitor)
    (dht : result (Z * Z)) (adc : Z) (out : list string) (calls : list lcd_call) :
  (List.length (methane_history st) <= 5)%nat ->
  cycle libm_pow st dht adc = Ok (st', out, calls) ->
  exists m,
    methane_of libm_pow (sensors st) (dht, adc) = Some m /\
    sensors st' = sensors st /\
    methane_history st' = last_n 5 (methane_history st ++ [m]) /\
    current_screen (display st') =
      (if current_screen (display st) =? 0 then 1 else 0).
Proof.
  intros Hlen. unfold cycle.
  destruct (read_all_parts libm_pow (sensors st) dht adc) as [o ->].
  destruct (opt_result float_of_int (fst (fst (read_dht dht)))) as [tv|];
    [|discriminate].
  cbn [bind].
  destruct (opt_result (fun h => f <- float_of_int h;; int_of_float f)
              (snd (fst (read_dht dht)))) as [hv|]; [|discriminate].
  cbn [bind].
  destruct (methane_of libm_pow (sensors st) (dht, adc)) as [m|];
    [|discriminate].
  rewrite (smooth_push _ m Hlen). cbn [bind print_status].
  unfold update. destruct (current_screen (display st) =? 0);
    intros E; injection E as <- _ _; exists m; repeat split.
Qed.

(** A cycle with a reading and 16-bit DHT values completes. *)
Lemma cycle_with_reading (libm_pow : float -> float -> float) (st : Monitor)
    (dht : result (Z * Z)) (adc : Z) (m : float) :
  (List.length (methane_history st) <= 5)%nat -> dht_16bit dht ->
  methane_of libm_pow (sensors st) (dht, adc) = Some m ->
  exists r, cycle libm_pow st dht adc = Ok r.
Proof.
  intros Hlen Hd Hm. unfold cycle.
  destruct (read_all_parts libm_pow (sensors st) dht adc) as [o ->].
  destruct (opt_float_16bit dht Hd) as [-> ->]. cbn [bind].
  rewrite Hm, (smooth_push _ m Hlen). cbn [bind print_status].
  destruct (update _ _ _ _ _). eexists. reflexivity.
Qed.

Lemma cycle_without_reading (libm_pow : float -> float -> float) (st : Monitor)
    (dht : result (Z * Z)) (adc : Z) :
  dht_16bit dht ->
  methane_of libm_pow (sensors st) (dht, adc) = None ->
  cycle libm_pow st dht adc = Raise TypeError.
Proof.
  intros Hd Hm. unfold cycle.
  destruct (read_all_parts libm_pow (sensors st) dht adc) as [o ->].
  destruct (opt_float_16bit dht Hd) as [-> ->]. cbn [bind].
  rewrite Hm. reflexivity.
Qed.

End LoopFacts.
Import LoopFacts.

(** X17: with DHT values within 16 bits (or a failed DHT read) and a
    window within capacity, a cycle completes exactly when the sensor suite
    produced a methane value: it then keeps the suite, pushes the value on
    the window and flips the screen; without a value it raises TypeError. *)
Theorem cycle_completes_iff_reading (libm_pow : float -> float -> float)
    (st : Monitor) (dht : result (Z * Z)) (adc : Z) :
  (List.length (methane_history st) <= 5)%nat -> dht_16bit dht ->
  (forall m, methane_of libm_pow (sensors st) (dht, adc) = Some m ->
     exists st' out calls,
       cycle libm_pow st dht adc = Ok (st', out, calls) /\
       sensors st' = sensors st /\
       methane_history st' = last_n 5 (methane_history st ++ [m]) /\
       current_screen (display st') =
         (if current_screen (display st) =? 0 then 1 else 0)) /\
  (methane_of libm_pow (sensors st) (dht, adc) = None ->
     cycle libm_pow st dht adc = Raise TypeError).
Proof.
  intros Hlen Hd. split.
  - intros m Hm.
    destruct (cycle_with_reading libm_pow st dht adc m Hlen Hd Hm)
      as [[[st' out] calls] E].
    exists st', out, calls. split; [exact E|].
    destruct (cycle_ok_inv libm_pow st st' dht adc out calls Hlen E)
      as (m' & Hm' & Hs & Hh & Hc).
    rewrite Hm in Hm'. injection Hm' as <-. repeat split; assumption.
  - apply cycle_without_reading. exact Hd.
Qed.

Lemma cycle_completes_iff_reading_witness :
  cycle (fun _ _ => nan)
        (mkMonitor (set_mq4_ro default_suite (Some 2500%float)) (mkDisplay 0) [])
        (Ok (25, 80)) 65535 = Raise TypeError.
Proof.
  apply (cycle_completes_iff_reading (fun _ _ => nan)
           (mkMonitor (set_mq4_ro default_suite (Some 2500%float)) (mkDisplay 0) [])
           (Ok (25, 80)) 65535).
  - cbn. lia.
  - cbn. lia.
  - reflexivity.
Defined.

Lemma run_ok_inv (libm_pow : float -> float -> float)
    (inputs : list (result (Z * Z) * Z)) :
  forall st st' frames,
    (List.length (methane_history st) <= 5)%nat ->
    run libm_pow st inputs = Ok (st', frames) ->
    sensors st' = sensors st /\
    (List.length (methane_history st') <= 5)%nat /\
    List.length frames = List.length inputs /\
    (exists ms,
       map (methane_of libm_pow (sensors st)) inputs = map Some ms /\
       methane_history st' = last_n 5 (methane_history st ++ ms)) /\
    (current_screen (display st) = 0 ->
     current_screen (display st') =
       if Nat.odd (List.length inputs) then 1 else 0) /\
    (current_screen (display st) = 1 ->
     current_screen (display st') =
       if Nat.odd (List.length inputs) then 0 else 1).
Proof.
  induction inputs as [|[dht adc] inputs IH]; intros st st' frames Hlen E.
  - cbn in E. injection E as <- <-.
    repeat split; try assumption; try (intros ->; reflexivity).
    exists []. rewrite app_nil_r, last_n_short by assumption.
    split; reflexivity.
  - cbn [run] in E.
    destruct (cycle libm_pow st dht adc) as [[[st1 out] calls]|] eqn:Ec;
      [|discriminate].
    cbn [bind] in E.
    destruct (run libm_pow st1 inputs) as [[st2 frames2]|] eqn:Er;
      [|discriminate].
    cbn [bind] in E. injection E as <- <-.
    destruct (cycle_ok_inv libm_pow st st1 dht adc out calls Hlen Ec)
      as (m & Hm & Hs & Hh & Hc).
    assert (Hlen1 : (List.length (methane_history st1) <= 5)%nat)
      by (rewrite Hh; apply last_n_length).
    destruct (IH st1 st2 frames2 Hlen1 Er)
      as (Hs2 & Hl2 & Hf2 & (ms & Hms & Hh2) & Hc0 & Hc1).
    split; [congruence|]. split; [assumption|].
    split; [cbn [List.length]; congruence|].
    split; [|split].
    + exists (m :: ms). cbn [map]. rewrite Hm, <- Hs, Hms.
      split; [reflexivity|].
      rewrite Hh2, Hh, last_n_app, <- app_assoc. reflexivity.
    + intros H0. rewrite H0 in Hc. cbn in Hc. rewrite (Hc1 Hc).
      cbn [List.length]. rewrite Nat.odd_succ, <- Nat.negb_odd.
      destruct (Nat.odd (List.length inputs)); reflexivity.
    + intros H1. rewrite H1 in Hc. cbn in Hc. rewrite (Hc0 Hc).
      cbn [List.length]. rewrite Nat.odd_succ, <- Nat.negb_odd.
      destruct (Nat.odd (List.length inputs)); reflexivity.
Qed.

(** X18: a run that completes never changes the sensor suite (the loop
    does not recalibrate), keeps the window within five values, renders
    one screen per cycle, alternating from the first screen, and had a
    methane value in every cycle; the window then holds the last five of
    the old window followed by those values. *)
Theorem run_keeps_invariants (libm_pow : float -> float -> float)
    (inputs : list (result (Z * Z) * Z)) (st st' : Monitor)
    (frames : list (list lcd_call)) :
  (List.length (methane_history st) <= 5)%nat ->
  run libm_pow st inputs = Ok (st', frames) ->
  sensors st' = sensors st /\
  (List.length (methane_history st') <= 5)%nat /\
  List.length frames = List.length inputs /\
  (exists ms,
     map (methane_of libm_pow (sensors st)) inputs = map Some ms /\
     methane_history st' = last_n 5 (methane_history st ++ ms)) /\
  (current_screen (display st) = 0 ->
   current_screen (display st') =
     if Nat.odd (List.length inputs) then 1 else 0).
Proof.
  intros Hlen E.
  destruct (run_ok_inv libm_pow inputs st st' frames Hlen E)
    as (H1 & H2 & H3 & H4 & H5 & _).
  repeat split; assumption.
Qed.

Lemma run_keeps_invariants_witness :
  let st := mkMonitor (set_mq4_ro default_suite (Some 2500%float)) (mkDisplay 0) [] in
  exists st' frames,
    run (fun _ _ => nan) st [(Ok (25, 80), 0); (Raise (OSError "t"), 0)]
    = Ok (st', frames) /\
    sensors st' = sensors st /\
    (List.length (methane_history st') <= 5)%nat.
Proof.
  intros st.
  destruct (run (fun _ _ => nan) st [(Ok (25, 80), 0); (Raise (OSError "t"), 0)])
    as [[st' frames]|] eqn:E; [|vm_compute in E; discriminate].
  exists st', frames. split; [reflexivity|].
  destruct (run_keeps_invariants (fun _ _ => nan)
              [(Ok (25, 80), 0); (Raise (OSError "t"), 0)] st st' frames)
    as (H1 & H2 & _); [cbn; lia | exact E |].
  split; assumption.
Defined.

(** X19: a run on inputs with 16-bit DHT values completes exactly when
    every cycle has a methane value; the first cycle without one ends it
    with TypeError. *)
Theorem run_completes_iff_all_readings (libm_pow : float -> float -> float)
    (inputs : list (result (Z * Z) * Z)) (st : Monitor) :
  (List.length (methane_history st) <= 5)%nat ->
  Forall (fun i => dht_16bit (fst i)) inputs ->
  (Forall (fun i => methane_of libm_pow (sensors st) i <> None) inputs ->
   exists r, run libm_pow st inputs = Ok r) /\
  (Exists (fun i => methane_of libm_pow (sensors st) i = None) inputs ->
   run libm_pow st inputs = Raise TypeError).
Proof.
  revert st. induction inputs as [|[dht adc] inputs IH]; intros st Hlen Hd.
  - split; [intros _; eexists; reflexivity | intros H; inversion H].
  - inversion Hd as [|? ? Hd1 Hd2]; subst. cbn [fst] in Hd1.
    destruct (methane_of libm_pow (sensors st) (dht, adc)) as [m|] eqn:Em.
    + destruct (cycle_with_reading libm_pow st dht adc m Hlen Hd1 Em)
        as [[[st1 out] calls] Ec].
      destruct (cycle_ok_inv libm_pow st st1 dht adc out calls Hlen Ec)
        as (m' & _ & Hs & Hh & _).
      assert (Hlen1 : (List.length (methane_history st1) <= 5)%nat)
        by (rewrite Hh; apply last_n_length).
      destruct (IH st1 Hlen1 Hd2) as [IHok IHbad]. rewrite Hs in IHok, IHbad.
      split.
      * intros Hall. inversion Hall as [|? ? _ Hrest]; subst.
        destruct (IHok Hrest) as [[st2 frames] Er].
        cbn [run]. rewrite Ec. cbn [bind]. rewrite Er. eexists. reflexivity.
      * intros Hex. inversion Hex as [? ? Hhere|? ? Hlater]; subst.
        -- rewrite Em in Hhere. discriminate.
        -- cbn [run]. rewrite Ec. cbn [bind]. rewrite (IHbad Hlater).
           reflexivity.
    + split.
      * intros Hall. inversion Hall as [|? ? Hhere _]; subst.
        rewrite Em in Hhere. contradiction.
      * intros _. cbn [run].
        rewrite (cycle_without_reading libm_pow st dht adc Hd1 Em).
        reflexivity.
Qed.

Lemma run_completes_iff_all_readings_witness :
  run (fun _ _ => nan)
      (mkMonitor (set_mq4_ro default_suite (Some 2500%float)) (mkDisplay 0) [])
      [(Ok (25, 80), 0); (Ok (25, 80), 65535)] = Raise TypeError.
Proof.
  apply (run_completes_iff_all_readings (fun _ _ => nan)
           [(Ok (25, 80), 0); (Ok (25, 80), 65535)]
           (mkMonitor (set_mq4_ro default_suite (Some 2500%float)) (mkDisplay 0) [])).
  - cbn. lia.
  - repeat constructor; cbn; lia.
  - apply Exists_cons_tl. apply Exists_cons_hd. reflexivity.
Defined.
Module NeverNA.

Local Open Scope string_scope.

Lemma str_of_Z_head (z : Z) :
  exists c rest, str_of_Z z = String c rest /\ c <> "N"%char.
Proof.
  unfold str_of_Z. destruct (Z.to_int z) as [d|d].
  - destruct d; cbn; eexists; eexists; (split; [reflexivity | discriminate]).
  - cbn. eexists; eexists; (split; [reflexivity | discriminate]).
Qed.

Lemma fixed_digits_head (n : nat) (scaled : Z) :
  exists c rest, fixed_digits n scaled = String c rest /\ c <> "N"%char.
Proof.
  unfold fixed_digits.
  destruct (str_of_Z_head (scaled / 10 ^ Z.of_nat n)) as (c & rest & E & Hc).
  rewrite E. destruct n; cbn; eexists; eexists; (split; [reflexivity | exact Hc]).
Qed.

Lemma format_f_head (n : nat) (x : float) :
  exists c rest, format_f n x = String c rest /\ c <> "N"%char.
Proof.
  unfold format_f.
  destruct (Prim2SF x) as [s|s| |s m e].
  - destruct (fixed_digits_head n 0) as (c & rest & E & Hc). rewrite E.
    destruct s; cbn; eexists; eexists; (split; [reflexivity|]);
      [discriminate | exact Hc].
  - destruct s; eexists; eexists; (split; [reflexivity | discriminate]).
  - eexists; eexists; (split; [reflexivity | discriminate]).
  - match goal with |- context [fixed_digits n ?z] =>
      destruct (fixed_digits_head n z) as (c & rest & E & Hc); rewrite E end.
    destruct s; cbn; eexists; eexists; (split; [reflexivity|]);
      [discriminate | exact Hc].
Qed.

Lemma methane_line_numeric (f : float) :
  pad ("Methane: " ++ format_f 2 f ++ "ppm") 16 <> "Methane: N/A    ".
Proof.
  destruct (format_f_head 2 f) as (c & rest & E & Hc). rewrite E.
  destruct (pad_16_cases ("Methane: " ++ String c rest ++ "ppm")) as [P|P];
    rewrite P; cbn; intros H; injection H as H; apply Hc; exact H.
Qed.

Lemma screen_2_or_0 (methane_avg : option float) (shelf_life : option string) :
  line_at 0 (display_screen_2 (Some (or_0 methane_avg)) shelf_life)
  <> Some "Methane: N/A    ".
Proof.
  unfold or_0, py_or. destruct methane_avg as [f|]; cbn [option_map truthy].
  - destruct (negb (num_is_0 (Flt f))).
    + cbn [display_screen_2 line_at float_of_num Z.eqb].
      intros H. injection H as H. exact (methane_line_numeric f H).
    + discriminate.
  - discriminate.
Qed.

Lemma screen_1_line (t h : option num) :
  line_at 0 (display_screen_1 t h) <> Some "Methane: N/A    ".
Proof.
  cbn [display_screen_1 line_at Z.eqb]. intros H. injection H as H. revert H.
  destruct t as [x|]; [destruct (float_of_num x)|];
    match goal with |- context [pad ?a 16] =>
      destruct (pad_16_cases a) as [P|P]; rewrite P end;
    cbn; discriminate.
Qed.

End NeverNA.
Import NeverNA.

(** X20: the main loop never shows "Methane: N/A": whatever the smoothed
    value, the value handed to the second screen ([methane_avg or 0]) is
    written as a number, and no completed cycle has that text on the
    first row. *)
Theorem main_loop_never_shows_methane_na (libm_pow : float -> float -> float) :
  (forall methane_avg shelf_life,
     line_at 0 (display_screen_2 (Some (or_0 methane_avg)) shelf_life)
     <> Some "Methane: N/A    "%string) /\
  (forall st dht adc st' out calls,
     cycle libm_pow st dht adc = Ok (st', out, calls) ->
     line_at 0 calls <> Some "Methane: N/A    "%string).
Proof.
  split; [exact screen_2_or_0|].
  intros st dht adc st' out calls. unfold cycle.
  destruct (read_all libm_pow (sensors st) dht adc) as [[[t h] m] o].
  destruct (opt_result float_of_int t) as [tv|]; [|discriminate]. cbn [bind].
  destruct (opt_result (fun h0 => f <- float_of_int h0;; int_of_float f) h)
    as [hv|]; [|discriminate].
  cbn [bind].
  destruct (smooth (methane_history st) m) as [[hist avg]|]; [|discriminate].
  cbn [bind].
  destruct (print_status avg); [|discriminate]. cbn [bind].
  unfold update. destruct (current_screen (display st) =? 0);
    intros E; injection E as _ _ <-.
  - apply screen_1_line.
  - apply screen_2_or_0.
Qed.

Lemma main_loop_never_shows_methane_na_witness :
  match cycle (fun _ _ => nan)
          (mkMonitor (set_mq4_ro default_suite (Some 2500%float)) (mkDisplay 1) [])
          (Ok (25, 80)) 0 with
  | Ok (_, _, calls) => line_at 0 calls <> Some "Methane: N/A    "%string
  | Raise _ => False
  end.
Proof.
  destruct (cycle (fun _ _ => nan)
              (mkMonitor (set_mq4_ro default_suite (Some 2500%float)) (mkDisplay 1) [])
              (Ok (25, 80)) 0) as [[[st' out] calls]|] eqn:E.
  - exact (proj2 (main_loop_never_shows_methane_na (fun _ _ => nan))
             _ _ _ st' out calls E).
  - vm_compute in E. discriminate.
Defined.
(** X21: on a calibrated suite the ratio read cannot fail for a 16-bit
    sample: it is the sample's resistance over the baseline, and +infinity
    when the baseline is zero, so the division is never by zero. *)
Theorem calibrated_ratio_total (self : SensorSuite) (ro : float) (adc : Z) :
  mq4_ro self = Some ro -> 0 <= adc <= 65535 ->
  exists rs,
    get_rs self adc None = Ok rs /\
    read_mq4_ratio self adc =
    Ok (if (ro =? 0)%float then infinity else (rs / ro)%float).
Proof.
  intros Hro Hadc. exists (resistance self adc).
  split; [exact (get_rs_u16 self adc Hadc)|].
  exact (read_mq4_ratio_u16 self ro adc Hro Hadc).
Qed.

Lemma calibrated_ratio_total_witness :
  exists rs,
    get_rs (set_mq4_ro default_suite (Some 1%float)) 32768 None = Ok rs /\
    read_mq4_ratio (set_mq4_ro default_suite (Some 1%float)) 32768 =
    Ok (if (1 =? 0)%float then infinity else (rs / 1)%float).
Proof.
  apply (calibrated_ratio_total (set_mq4_ro default_suite (Some 1%float)) 1 32768);
    [reflexivity | lia].
Defined.

(** ** The methane row of the second screen *)



